(** * GitHub automation front end (main.py) and the synchronization engine

    The first part embeds [src/main.py]: the four agent tools for GitHub
    operations and the four CLI command handlers, together with the part of
    [main()] that builds their argument namespaces.  The functions imported
    from [services.github_ops] are not part of the embedded file; they are
    an [Engine] record of responses, and every call made to them is logged.
    The two web perception tools and the agent mode are embedded further
    down, with the responses of [services.web_tools] and the language-model
    agent as parameters.

    The second part models the tree builder and the commit composer of the
    synchronization engine from the specification text, since their code is
    not in [src/]. *)

From Stdlib Require Import String Ascii List Arith Lia Bool DecimalString Permutation.
From stdpp Require Import gmap strings list fin_maps sorting.

Import ListNotations.
Local Open Scope string_scope.
Local Open Scope list_scope.
Local Open Scope nat_scope.

(** ** Python strings

    A Python [str] is modelled as the Rocq [string] of its UTF-8 encoding.
    Splitting on the ASCII separators ['|'] and ['/'] and testing an ASCII
    prefix are exact on that representation.  [strip] removes the encodings
    of the characters for which [str.isspace] holds, [len] and slices count
    characters, that is the bytes that do not continue a character.
    [str.lower] is not defined here: the functions that call it take it as
    the parameter [lower]; [lower_ascii] is what it does on ASCII text, and
    serves the examples. *)

Module PyStr.

(** [str.isspace] for a character encoded in one byte: TAB, LF, VT, FF, CR,
    the four separators FS, GS, RS, US, and the space. *)
Definition isspace (c : ascii) : bool :=
  let n := nat_of_ascii c in
  (((9 <=? n) && (n <=? 13)) || ((28 <=? n) && (n <=? 31)) || (n =? 32))%nat.

(** [str.isspace] for a character encoded in two bytes: U+0085 (C2 85) and
    U+00A0 (C2 A0). *)
Definition isspace2 (a b : ascii) : bool :=
  let x := nat_of_ascii a in
  let y := nat_of_ascii b in
  ((x =? 194) && ((y =? 133) || (y =? 160)))%nat.

(** [str.isspace] for a character encoded in three bytes: U+1680
    (E1 9A 80), U+2000 to U+200A (E2 80 80 to E2 80 8A), U+2028, U+2029 and
    U+202F (E2 80 A8, A9, AF), U+205F (E2 81 9F) and U+3000 (E3 80 80).  No
    character of four bytes is a space. *)
Definition isspace3 (a b c : ascii) : bool :=
  let x := nat_of_ascii a in
  let y := nat_of_ascii b in
  let z := nat_of_ascii c in
  (((x =? 225) && (y =? 154) && (z =? 128))
   || ((x =? 226) && (y =? 128)
       && (((128 <=? z) && (z <=? 138)) || (z =? 168) || (z =? 169) || (z =? 175)))
   || ((x =? 226) && (y =? 129) && (z =? 159))
   || ((x =? 227) && (y =? 128) && (z =? 128)))%nat.

(** Dropping the spaces a string starts with, given the tests for the
    spaces of two and three bytes in the order the bytes are met. *)
Fixpoint drop_spaces (sp2 : ascii -> ascii -> bool)
    (sp3 : ascii -> ascii -> ascii -> bool) (s : string) : string :=
  match s with
  | EmptyString => EmptyString
  | String a s1 =>
      if isspace a then drop_spaces sp2 sp3 s1
      else match s1 with
           | String b s2 =>
               if sp2 a b then drop_spaces sp2 sp3 s2
               else match s2 with
                    | String c s3 =>
                        if sp3 a b c then drop_spaces sp2 sp3 s3 else s
                    | EmptyString => s
                    end
           | EmptyString => s
           end
  end.

Fixpoint rev_onto (s acc : string) : string :=
  match s with
  | EmptyString => acc
  | String c s' => rev_onto s' (String c acc)
  end.

Definition reverse (s : string) : string := rev_onto s EmptyString.

(** [s.lstrip()] *)
Definition lstrip (s : string) : string := drop_spaces isspace2 isspace3 s.

(** [s.rstrip()]: the spaces at the end are met last byte first. *)
Definition rstrip (s : string) : string :=
  reverse
    (drop_spaces (fun a b => isspace2 b a) (fun a b c => isspace3 c b a)
       (reverse s)).

(** [s.strip()] *)
Definition strip (s : string) : string := rstrip (lstrip s).

(** A byte that continues a character: 10xxxxxx. *)
Definition is_continuation (c : ascii) : bool :=
  let n := nat_of_ascii c in ((128 <=? n) && (n <? 192))%nat.

(** [len(s)]: the number of characters. *)
Fixpoint len (s : string) : nat :=
  match s with
  | EmptyString => 0
  | String c s' => (if is_continuation c then 0 else 1) + len s'
  end.

(** [s[:n]]: the first [n] characters. *)
Fixpoint slice_to (n : nat) (s : string) : string :=
  match s with
  | EmptyString => EmptyString
  | String c s' =>
      if is_continuation c then String c (slice_to n s')
      else match n with
           | 0 => EmptyString
           | S n' => String c (slice_to n' s')
           end
  end.

Definition lower_char (c : ascii) : ascii :=
  let n := nat_of_ascii c in
  if ((65 <=? n) && (n <=? 90))%nat then ascii_of_nat (n + 32) else c.

(** [s.lower()] when the cased letters of [s] are ASCII. *)
Fixpoint lower_ascii (s : string) : string :=
  match s with
  | EmptyString => EmptyString
  | String c s' => String (lower_char c) (lower_ascii s')
  end.

(** [s.split(sep)] for a one-character separator: never the empty list. *)
Fixpoint split (sep : ascii) (s : string) : list string :=
  match s with
  | EmptyString => [EmptyString]
  | String c s' =>
      if Ascii.eqb c sep then EmptyString :: split sep s'
      else match split sep s' with
           | [] => [String c EmptyString]
           | p :: ps => String c p :: ps
           end
  end.

(** [sep.join(l)] *)
Fixpoint join (sep : string) (l : list string) : string :=
  match l with
  | [] => EmptyString
  | [x] => x
  | x :: rest => x +:+ sep +:+ join sep rest
  end.

(** [str(n)] for a non-negative integer such as a [len(...)]. *)
Definition str_of_nat (n : nat) : string :=
  NilEmpty.string_of_uint (Nat.to_uint n).

(** Truthiness of a string: non-empty. *)
Definition truthy (s : string) : bool :=
  match s with EmptyString => false | _ => true end.

(** Number of occurrences of a character. *)
Fixpoint count (sep : ascii) (s : string) : nat :=
  match s with
  | EmptyString => 0
  | String c s' => (if Ascii.eqb c sep then 1 else 0) + count sep s'
  end.

End PyStr.

Example split_ex : PyStr.split "|" "a|b||c" = ["a"; "b"; ""; "c"].
Proof. reflexivity. Qed.
Example strip_ex : PyStr.strip "  a b	 " = "a b".
Proof. reflexivity. Qed.
Example lower_ex : PyStr.lower_ascii "TrUe1" = "true1".
Proof. reflexivity. Qed.
Example strip_unicode_ex :
  PyStr.strip
    (String (ascii_of_nat 194) (String (ascii_of_nat 160)
       ("true" +:+ String (ascii_of_nat 226) (String (ascii_of_nat 128)
                      (String (ascii_of_nat 137) " "))))) = "true".
Proof. reflexivity. Qed.
Example len_ex :
  PyStr.len "naïve" = 5 /\ String.length "naïve" = 6 /\
  PyStr.slice_to 3 "naïve" = "naï".
Proof. repeat split; reflexivity. Qed.
Example str_ex : PyStr.str_of_nat 0 = "0" /\ PyStr.str_of_nat 120 = "120".
Proof. split; reflexivity. Qed.

(** The no-break space U+00A0, a space that is not ASCII, for the
    examples. *)
Definition nbsp : string :=
  String (ascii_of_nat 194) (String (ascii_of_nat 160) EmptyString).

(** ** Exceptions, the world and the effect monad *)

(** Exceptions a call can raise, sorted by the [except] clause that would
    catch them; a constructor stands for a class together with its
    subclasses.  [GitHubError] is the error kind of [services.github_ops];
    [ValueError] is [ValueError] when it is no [GitHubError];
    [OtherException cls msg] is an instance of any other class deriving
    from [Exception], so of none of the two before, and [cls] names that
    class; the last constructor stands for the classes that derive from
    [BaseException] but not from [Exception] ([KeyboardInterrupt],
    [SystemExit]), which [except Exception] does not catch. *)
Inductive exn : Type :=
| GitHubError (msg : string) (status : option nat)
| ValueError (msg : string)
| OtherException (cls msg : string)
| NonException (cls msg : string).

(** [str(e)], as interpolated by [f"...{e}"]. *)
Definition exn_str (e : exn) : string :=
  match e with
  | GitHubError msg _ => msg
  | ValueError msg => msg
  | OtherException _ msg => msg
  | NonException _ msg => msg
  end.

(** [isinstance(e, GitHubError)], [isinstance(e, ValueError)] and
    [isinstance(e, Exception)]. *)
Definition is_GitHubError (e : exn) : bool :=
  match e with GitHubError _ _ => true | _ => false end.
Definition is_ValueError (e : exn) : bool :=
  match e with ValueError _ => true | _ => false end.
Definition is_Exception (e : exn) : bool :=
  match e with NonException _ _ => false | _ => true end.

(** One call into [services.github_ops], with its arguments. *)
Inductive Call : Type :=
| CallGetUserInfo
| CallListRepositories
| CallCreateRepository (name description : string) (private : bool)
    (org : option string)
| CallSyncProjectToRepo (owner repo local_path branch : string)
| CallCreateRepoAndSync (name description : string) (private : bool)
    (local_path : string) (org : option string).

(** The local path and the branch a call hands to the engine. *)
Definition call_path (c : Call) : option string :=
  match c with
  | CallSyncProjectToRepo _ _ p _ => Some p
  | CallCreateRepoAndSync _ _ _ p _ => Some p
  | _ => None
  end.
Definition call_branch (c : Call) : option string :=
  match c with
  | CallSyncProjectToRepo _ _ _ b => Some b
  | _ => None
  end.
Definition is_sync_call (c : Call) : bool :=
  match c with CallSyncProjectToRepo _ _ _ _ => true | _ => false end.

(** What the program has done so far: the engine calls it made, in order,
    and the texts it printed, one per [print] call. *)
Record World : Type := mkWorld {
  calls : list Call;
  stdout : list string
}.

Inductive outcome (A : Type) : Type :=
| Returns (a : A)
| Raises (e : exn).
Arguments Returns {A} a.
Arguments Raises {A} e.

(** A Python computation: it returns or raises, and changes the world. *)
Definition M (A : Type) : Type := World -> outcome A * World.

Definition ret {A} (a : A) : M A := fun w => (Returns a, w).
Definition raise {A} (e : exn) : M A := fun w => (Raises e, w).
Definition bind {A B} (c : M A) (k : A -> M B) : M B :=
  fun w =>
    match c w with
    | (Returns a, w') => k a w'
    | (Raises e, w') => (Raises e, w')
    end.

Notation "'let*' x ':=' c 'in' k" := (bind c (fun x => k))
  (at level 10, x pattern, c at level 100, k at level 200).
Notation "c ';;' k" := (bind c (fun _ => k))
  (at level 100, k at level 200, right associativity).

(** [try: body except C1 as e: h1 except C2 as e: h2 ...]: the first clause
    whose class test accepts the exception handles it, in the world the body
    left; an exception no clause accepts propagates. *)
Fixpoint dispatch {A} (clauses : list ((exn -> bool) * (exn -> M A)))
    (e : exn) : M A :=
  match clauses with
  | [] => raise e
  | (accepts, handler) :: rest =>
      if accepts e then handler e else dispatch rest e
  end.

Definition try_except {A} (body : M A)
    (clauses : list ((exn -> bool) * (exn -> M A))) : M A :=
  fun w =>
    match body w with
    | (Returns a, w') => (Returns a, w')
    | (Raises e, w') => dispatch clauses e w'
    end.

(** [print(text)] *)
Definition print (text : string) : M unit :=
  fun w => (Returns tt, mkWorld (calls w) (stdout w ++ [text])).

(** [for x in l: body(x)] *)
Fixpoint for_each {A} (l : list A) (body : A -> M unit) : M unit :=
  match l with
  | [] => ret tt
  | x :: rest => body x ;; for_each rest body
  end.

(** [l[i]] *)
Definition index (l : list string) (i : nat) : M string :=
  match nth_error l i with
  | Some x => ret x
  | None => raise (OtherException "IndexError" "list index out of range")
  end.

(** [a, b = l] *)
Definition unpack2 (l : list string) : M (string * string) :=
  match l with
  | [a; b] => ret (a, b)
  | [] | [_] =>
      raise (ValueError ("not enough values to unpack (expected 2, got "
                         +:+ PyStr.str_of_nat (length l) +:+ ")"))
  | _ => raise (ValueError "too many values to unpack (expected 2)")
  end.

(** ** The engine interface: [services.github_ops] *)

(** Modelled from the spec: the values the exposed operations return (the
    module [services.github_ops] is not among the sources); only the fields
    that main.py reads are kept. *)
Record UserInfo : Type := { login : string }.
Record RepoInfo : Type := {
  name : string;
  private : bool;
  description : option string
}.
Record CreatedRepo : Type := { html_url : string }.
Record SyncResult : Type := { url : string; synced_files : list string }.

(** The responses of the engine.  Each may depend on the calls made before,
    so that a stateful remote is covered. *)
Record Engine : Type := {
  get_user_info_resp : list Call -> outcome UserInfo;
  list_repositories_resp : list Call -> outcome (list RepoInfo);
  create_repository_resp :
    list Call -> string -> string -> bool -> option string ->
    outcome CreatedRepo;
  sync_project_to_repo_resp :
    list Call -> string -> string -> string -> string ->
    outcome (list string);
  create_repo_and_sync_resp :
    list Call -> string -> string -> bool -> string -> option string ->
    outcome (option SyncResult)
}.

(** A call is logged, then answered. *)
Definition invoke {A} (c : Call) (resp : list Call -> outcome A) : M A :=
  fun w => (resp (calls w), mkWorld (calls w ++ [c]) (stdout w)).

Section Operations.
Variable E : Engine.

Definition get_user_info : M UserInfo :=
  invoke CallGetUserInfo (get_user_info_resp E).
Definition list_repositories : M (list RepoInfo) :=
  invoke CallListRepositories (list_repositories_resp E).
Definition create_repository (nm descr : string) (priv : bool)
    (org : option string) : M CreatedRepo :=
  invoke (CallCreateRepository nm descr priv org)
         (fun h => create_repository_resp E h nm descr priv org).
Definition sync_project_to_repo (owner repo local_path branch : string)
    : M (list string) :=
  invoke (CallSyncProjectToRepo owner repo local_path branch)
         (fun h => sync_project_to_repo_resp E h owner repo local_path branch).
Definition create_repo_and_sync (nm descr : string) (priv : bool)
    (local_path : string) (org : option string) : M (option SyncResult) :=
  invoke (CallCreateRepoAndSync nm descr priv local_path org)
         (fun h => create_repo_and_sync_resp E h nm descr priv local_path org).
End Operations.

(** ** The agent tools for GitHub operations *)

Definition newline : string := String (ascii_of_nat 10) EmptyString.

Definition github_error_text (e : exn) : string := "GitHub Error: " +:+ exn_str e.
Definition unexpected_error_text (e : exn) : string :=
  "Unexpected error: " +:+ exn_str e.

(** The two [except] clauses every GitHub tool ends with. *)
Definition tool_clauses : list ((exn -> bool) * (exn -> M string)) :=
  [ (is_GitHubError, fun e => ret (github_error_text e));
    (is_Exception, fun e => ret (unexpected_error_text e)) ].

Definition create_format_error : string :=
  "Error: Invalid format. Use: name|description|private(true/false)|org(optional)".
Definition sync_format_error : string :=
  "Error: Invalid format. Use: owner/repo_name|branch(optional)".
Definition repository_format_error : string :=
  "Error: Repository format should be owner/repo_name".

Section Tools.
(** [str.lower], a builtin of Python. *)
Variable lower : string -> string.
Variable E : Engine.

(** The [try] block of [list_my_github_repos]. *)
Definition list_my_github_repos_body (query : string) : M string :=
  let* user := get_user_info E in
  let* repos := list_repositories E in
  let repo_names := map name repos in
  match repo_names with
  | [] => ret ("Connected as '" +:+ login user +:+ "' but found 0 repositories.")
  | _ =>
      ret ("SUCCESS! Connected as '" +:+ login user +:+ "'. Found "
           +:+ PyStr.str_of_nat (length repo_names) +:+ " repositories: "
           +:+ PyStr.join ", " repo_names)
  end.

Definition list_my_github_repos (query : string) : M string :=
  try_except (list_my_github_repos_body query) tool_clauses.

(** The four fields read from ["name|description|private|org"], after the
    length test: lines 52-55 and 104-107 of main.py. *)
Definition parse_repo_fields (parts : list string)
    : M (string * string * bool * option string) :=
  let* p0 := index parts 0 in
  let nm := PyStr.strip p0 in
  let* descr :=
    (if 1 <? length parts
     then let* p1 := index parts 1 in ret (PyStr.strip p1)
     else ret "") in
  let* priv :=
    (if 2 <? length parts
     then let* p2 := index parts 2 in
          ret (String.eqb (lower (PyStr.strip p2)) "true")
     else ret true) in
  let* org :=
    (if 3 <? length parts
     then let* p3 := index parts 3 in
          if PyStr.truthy (PyStr.strip p3)
          then let* p3' := index parts 3 in ret (Some (PyStr.strip p3'))
          else ret None
     else ret None) in
  ret (nm, descr, priv, org).

(** The [try] block of [create_github_repo]. *)
Definition create_github_repo_body (repo_info : string) : M string :=
  let parts := PyStr.split "|" repo_info in
  if length parts <? 3 then ret create_format_error
  else
    let* (nm, descr, priv, org) := parse_repo_fields parts in
    let* repo := create_repository E nm descr priv org in
    ret ("SUCCESS! Repository '" +:+ nm +:+ "' created: " +:+ html_url repo).

Definition create_github_repo (repo_info : string) : M string :=
  try_except (create_github_repo_body repo_info) tool_clauses.

(** The [try] block of [sync_project_to_github]. *)
Definition sync_project_to_github_body (repo_info : string) : M string :=
  let parts := PyStr.split "|" repo_info in
  if length parts <? 1 then ret sync_format_error
  else
    let* p0 := index parts 0 in
    let repo_path := PyStr.split "/" (PyStr.strip p0) in
    if negb (length repo_path =? 2) then ret repository_format_error
    else
      let* (owner, repo) := unpack2 repo_path in
      let* branch :=
        (if 1 <? length parts
         then let* p1 := index parts 1 in
              if PyStr.truthy (PyStr.strip p1)
              then let* p1' := index parts 1 in ret (PyStr.strip p1')
              else ret "main"
         else ret "main") in
      let* synced := sync_project_to_repo E owner repo "." branch in
      ret ("SUCCESS! Synced " +:+ PyStr.str_of_nat (length synced)
           +:+ " files to " +:+ owner +:+ "/" +:+ repo
           +:+ " on branch " +:+ branch).

Definition sync_project_to_github (repo_info : string) : M string :=
  try_except (sync_project_to_github_body repo_info) tool_clauses.

(** The [try] block of [create_repo_and_upload_project]. *)
Definition create_repo_and_upload_project_body (repo_info : string)
    : M string :=
  let parts := PyStr.split "|" repo_info in
  if length parts <? 3 then ret create_format_error
  else
    let* (nm, descr, priv, org) := parse_repo_fields parts in
    let* result := create_repo_and_sync E nm descr priv "." org in
    match result with
    | Some r =>
        ret ("SUCCESS! Created repository and synced "
             +:+ PyStr.str_of_nat (length (synced_files r))
             +:+ " files: " +:+ url r)
    | None => ret "Failed to create repository and sync files"
    end.

Definition create_repo_and_upload_project (repo_info : string) : M string :=
  try_except (create_repo_and_upload_project_body repo_info) tool_clauses.
End Tools.

(** ** The CLI command handlers *)

(** The argument namespaces the sub-parsers of [main()] build. *)
Record CreateArgs : Type := {
  a_name : string;
  a_description : string;
  a_public : bool;
  a_org : option string;
  a_private : bool
}.
Record SyncArgs : Type := {
  s_repository : string;
  s_path : string;
  s_branch : string
}.
Record CreateSyncArgs : Type := {
  cs_name : string;
  cs_description : string;
  cs_public : bool;
  cs_org : option string;
  cs_path : string;
  cs_private : bool
}.

Definition cli_error_text (e : exn) : string := "✗ Error: " +:+ exn_str e.
Definition cli_repository_format_error : string :=
  "✗ Error: Repository format should be owner/repo_name".

(** The single [except GitHubError] clause of a CLI handler. *)
Definition cli_clauses : list ((exn -> bool) * (exn -> M unit)) :=
  [ (is_GitHubError, fun e => print (cli_error_text e)) ].

Section Commands.
Variable E : Engine.

(** The [try] block of [cmd_list_repos]. *)
Definition cmd_list_repos_body : M unit :=
  let* user := get_user_info E in
  let* repos := list_repositories E in
  print (newline +:+ "✓ Connected as: " +:+ login user) ;;
  print ("✓ Found " +:+ PyStr.str_of_nat (length repos) +:+ " repositories:") ;;
  for_each repos (fun repo =>
    let visibility := if private repo then "🔒 Private" else "🌍 Public" in
    print ("  • " +:+ name repo +:+ " - " +:+ visibility) ;;
    match description repo with
    | Some d => if PyStr.truthy d then print ("    " +:+ d) else ret tt
    | None => ret tt
    end) ;;
  print "".

Definition cmd_list_repos : M unit :=
  try_except cmd_list_repos_body cli_clauses.

(** The [try] block of [cmd_create_repo]. *)
Definition cmd_create_repo_body (args : CreateArgs) : M unit :=
  let* repo :=
    create_repository E (a_name args) (a_description args) (a_private args)
      (a_org args) in
  print ("✓ Repository created: " +:+ html_url repo).

Definition cmd_create_repo (args : CreateArgs) : M unit :=
  try_except (cmd_create_repo_body args) cli_clauses.

(** The [try] block of [cmd_sync_project]. *)
Definition cmd_sync_project_body (args : SyncArgs) : M unit :=
  let* (owner, repo) := unpack2 (PyStr.split "/" (s_repository args)) in
  let* synced := sync_project_to_repo E owner repo (s_path args) (s_branch args) in
  print ("✓ Synced " +:+ PyStr.str_of_nat (length synced) +:+ " files to "
         +:+ s_repository args).

Definition cmd_sync_project (args : SyncArgs) : M unit :=
  try_except (cmd_sync_project_body args)
    (cli_clauses ++
     [ (is_ValueError, fun _ => print cli_repository_format_error) ]).

(** The [try] block of [cmd_create_and_sync]. *)
Definition cmd_create_and_sync_body (args : CreateSyncArgs) : M unit :=
  let* result :=
    create_repo_and_sync E (cs_name args) (cs_description args)
      (cs_private args) (cs_path args) (cs_org args) in
  match result with
  | Some r => print ("✓ Success! Repository URL: " +:+ url r)
  | None => print "✗ Failed to create repository and sync files"
  end.

Definition cmd_create_and_sync (args : CreateSyncArgs) : M unit :=
  try_except (cmd_create_and_sync_body args) cli_clauses.
End Commands.

(** ** [main()] and the script

    The command line is kept as argparse sees it: which sub-command, the
    positional values, and for each option whether it was given.  The
    [agent] sub-command (and the run without sub-command, which enters agent
    mode) drives a language model and is outside this embedding. *)
Inductive CommandLine : Type :=
| LineList
| LineCreateRepo (nm : string) (descr : option string) (public : bool)
    (org : option string) (private_flag : bool)
| LineSync (repository : string) (path : option string)
    (branch : option string)
| LineCreateAndSync (nm : string) (descr : option string) (public : bool)
    (org : option string) (path : option string) (private_flag : bool).

(** [args.command] with the namespace of its sub-parser. *)
Inductive Namespace : Type :=
| NsList
| NsCreateRepo (args : CreateArgs)
| NsSync (args : SyncArgs)
| NsCreateAndSync (args : CreateSyncArgs).

(** An option that was not given takes the [default=] of its
    [add_argument]; a [store_true] flag with [default=True] is [True] either
    way. *)
Definition or_default (given : option string) (dflt : string) : string :=
  match given with Some v => v | None => dflt end.

Definition parse_args (line : CommandLine) : Namespace :=
  match line with
  | LineList => NsList
  | LineCreateRepo nm descr public org private_flag =>
      NsCreateRepo {| a_name := nm;
                      a_description := or_default descr "";
                      a_public := public;
                      a_org := org;
                      a_private := if private_flag then true else true |}
  | LineSync repository path branch =>
      NsSync {| s_repository := repository;
                s_path := or_default path ".";
                s_branch := or_default branch "main" |}
  | LineCreateAndSync nm descr public org path private_flag =>
      NsCreateAndSync {| cs_name := nm;
                         cs_description := or_default descr "";
                         cs_public := public;
                         cs_org := org;
                         cs_path := or_default path ".";
                         cs_private := if private_flag then true else true |}
  end.

(** [if hasattr(args, 'public') and args.public: args.private = False] *)
Definition fix_private (ns : Namespace) : Namespace :=
  match ns with
  | NsCreateRepo a =>
      if a_public a
      then NsCreateRepo {| a_name := a_name a;
                           a_description := a_description a;
                           a_public := a_public a;
                           a_org := a_org a;
                           a_private := false |}
      else ns
  | NsCreateAndSync a =>
      if cs_public a
      then NsCreateAndSync {| cs_name := cs_name a;
                              cs_description := cs_description a;
                              cs_public := cs_public a;
                              cs_org := cs_org a;
                              cs_path := cs_path a;
                              cs_private := false |}
      else ns
  | _ => ns
  end.

(** [args.func(args)] *)
Definition run_func (E : Engine) (ns : Namespace) : M unit :=
  match ns with
  | NsList => cmd_list_repos E
  | NsCreateRepo a => cmd_create_repo E a
  | NsSync a => cmd_sync_project E a
  | NsCreateAndSync a => cmd_create_and_sync E a
  end.

(** The [try] block that [args.func] guards, for the statement of what a
    handler does with an exception raised there. *)
Definition func_body (E : Engine) (ns : Namespace) : M unit :=
  match ns with
  | NsList => cmd_list_repos_body E
  | NsCreateRepo a => cmd_create_repo_body E a
  | NsSync a => cmd_sync_project_body E a
  | NsCreateAndSync a => cmd_create_and_sync_body E a
  end.

Definition main (E : Engine) (line : CommandLine) : M unit :=
  run_func E (fix_private (parse_args line)).

Definition banner : list string :=
  [ "=====================================";
    "  GitHub Automation System v1.0";
    "=====================================" ].

(** The [if __name__ == "__main__":] block. *)
Definition script (E : Engine) (line : CommandLine) : M unit :=
  for_each banner print ;; main E line.

(** Completion status of the interpreter: 0 when the script runs to its
    end, 1 when an exception deriving from [Exception] reaches the top
    level.  For an exception outside [Exception] the status depends on the
    exception (the interrupt signal for [KeyboardInterrupt], the code given
    to [SystemExit]) and is left undetermined. *)
Definition exit_status {A} (o : outcome A) : option nat :=
  match o with
  | Returns _ => Some 0
  | Raises e => if is_Exception e then Some 1 else None
  end.

Definition initial_world : World := mkWorld [] [].

(** Running the program: its completion status and the final world. *)
Definition run_script (E : Engine) (line : CommandLine)
    : option nat * World :=
  let (o, w) := script E line initial_world in (exit_status o, w).

(** ** Auxiliary definitions for the statements *)

(** The GitHub tools registered in [initialize_agent_system]. *)
Inductive Tool : Type :=
| ListMyGithubRepos
| CreateGithubRepo
| SyncProjectToGithub
| CreateRepoAndUploadProject.

Definition run_tool (lower : string -> string) (E : Engine) (t : Tool)
    (input : string) : M string :=
  match t with
  | ListMyGithubRepos => list_my_github_repos E input
  | CreateGithubRepo => create_github_repo lower E input
  | SyncProjectToGithub => sync_project_to_github E input
  | CreateRepoAndUploadProject => create_repo_and_upload_project lower E input
  end.

(** The [try] block of a tool. *)
Definition tool_body (lower : string -> string) (E : Engine) (t : Tool)
    (input : string) : M string :=
  match t with
  | ListMyGithubRepos => list_my_github_repos_body E input
  | CreateGithubRepo => create_github_repo_body lower E input
  | SyncProjectToGithub => sync_project_to_github_body E input
  | CreateRepoAndUploadProject =>
      create_repo_and_upload_project_body lower E input
  end.

(** The text a tool returns for an exception it catches. *)
Definition tool_diagnosis (e : exn) : string :=
  if is_GitHubError e then github_error_text e else unexpected_error_text e.

(** The organisation read from the fields after the third: the fourth,
    stripped, unless it is missing or blank. *)
Definition org_field (rest : list string) : option string :=
  match rest with
  | p3 :: _ => if PyStr.truthy (PyStr.strip p3) then Some (PyStr.strip p3) else None
  | [] => None
  end.

(** The first pipe-field of a tool input, [repo_info.split('|')[0]]. *)
Definition first_field (repo_info : string) : string :=
  hd EmptyString (PyStr.split "|" repo_info).

(** The branch read from the fields after the first: the second, stripped,
    unless it is missing or blank, and then ["main"]. *)
Definition branch_field (rest : list string) : string :=
  match rest with
  | p1 :: _ => if PyStr.truthy (PyStr.strip p1) then PyStr.strip p1 else "main"
  | [] => "main"
  end.

(** The branch field of a sync input is omitted or blank. *)
Definition branch_blank (repo_info : string) : Prop :=
  match nth_error (PyStr.split "|" repo_info) 1 with
  | None => True
  | Some b => PyStr.strip b = EmptyString
  end.

(** Engines for the examples: one that answers every call, and ones that
    fail a call with a given exception. *)
Definition ok_engine : Engine := {|
  get_user_info_resp := fun _ => Returns {| login := "octo" |};
  list_repositories_resp := fun _ =>
    Returns [ {| name := "alpha"; private := true; description := Some "first" |};
              {| name := "beta"; private := false; description := None |} ];
  create_repository_resp := fun _ nm _ _ _ =>
    Returns {| html_url := "https://github.com/octo/" +:+ nm |};
  sync_project_to_repo_resp := fun _ _ _ _ _ => Returns ["main.py"; "README.md"];
  create_repo_and_sync_resp := fun _ nm _ _ _ _ =>
    Returns (Some {| url := "https://github.com/octo/" +:+ nm;
                     synced_files := ["main.py"] |})
|}.

Definition failing_engine (e : exn) : Engine := {|
  get_user_info_resp := fun _ => Raises e;
  list_repositories_resp := fun _ => Raises e;
  create_repository_resp := fun _ _ _ _ _ => Raises e;
  sync_project_to_repo_resp := fun _ _ _ _ _ => Raises e;
  create_repo_and_sync_resp := fun _ _ _ _ _ _ => Raises e
|}.

(** The engine fails only when repositories are listed. *)
Definition listing_fails (e : exn) : Engine := {|
  get_user_info_resp := get_user_info_resp ok_engine;
  list_repositories_resp := fun _ => Raises e;
  create_repository_resp := create_repository_resp ok_engine;
  sync_project_to_repo_resp := sync_project_to_repo_resp ok_engine;
  create_repo_and_sync_resp := create_repo_and_sync_resp ok_engine
|}.

(** ** The synchronization engine: tree builder

    The engine lives in [services.github_ops], which is not among the
    sources.  The definitions of this part follow the specification's
    component contracts. *)

(** Modelled from the spec: the error taxonomy of the engine ([services.github_ops]
    is missing), with the path, collection and upload errors of the
    component contracts. *)
Inductive EngineError : Type :=
| AuthError
| NotFoundError
| RateLimitError
| ConcurrentModificationError
| ValidationError
| NetworkError
| AlreadyExistsError
| PathError
| CollectionError
| UploadError.

Inductive Result (A : Type) : Type :=
| Ok (a : A)
| Err (e : EngineError).
Arguments Ok {A} a.
Arguments Err {A} e.

(** Modelled from the spec: the mode of a tree entry (the tree builder is
    missing): file, executable or subdirectory. *)
Inductive Mode : Type := RegularFile | ExecutableFile | Subdirectory.

(** Modelled from the spec: a LocalFile produced by the FileCollector (which
    is missing): relative path, raw bytes, executable flag. *)
Record LocalFile : Type := {
  lf_path : string;
  lf_bytes : string;
  lf_executable : bool
}.

(** Modelled from the spec: the nested tree graph the TreeBuilder constructs
    (its code is missing).  A directory holds one entry per path segment. *)
#[local] Set Warnings "-register-all".
Inductive Node : Type :=
| FileNode (mode : Mode) (address : string)
| DirNode (children : gmap string Node).

Definition node_mode (n : Node) : Mode :=
  match n with
  | FileNode m _ => m
  | DirNode _ => Subdirectory
  end.

(** Modelled from the spec: path normalization of the TreeBuilder (missing
    code): the segments between slashes, empty segments stripped. *)
Definition path_segments (p : string) : list string :=
  List.filter PyStr.truthy (PyStr.split "/" p).

Definition has_dotdot (segs : list string) : bool :=
  existsb (String.eqb "..") segs.

(** Modelled from the spec: placing one (path, node) pair in the tree graph
    (the TreeBuilder is missing): the entry is grouped under the directory
    of its leading segments, created on the way. *)
Fixpoint insert_path (segs : list string) (leaf : Node) (n : Node) : Node :=
  match segs with
  | [] => n
  | [s] =>
      match n with
      | DirNode ch => DirNode (<[s := leaf]> ch)
      | FileNode _ _ => n
      end
  | s :: rest =>
      match n with
      | DirNode ch =>
          let sub := match ch !! s with
                     | Some (DirNode c) => DirNode c
                     | _ => DirNode ∅
                     end in
          DirNode (<[s := insert_path rest leaf sub]> ch)
      | FileNode _ _ => n
      end
  end.

Section TreeBuilder.
(** The content-address functions of the remote object store. *)
Variable blob_hash : string -> string.
Variable tree_hash : list (string * (Mode * string)) -> string.

(** Modelled from the spec: the address of a tree (TreeBuilder, missing
    code): every subdirectory's tree is built first, then the child
    addresses are folded into the parent's entries. *)
Fixpoint node_address (n : Node) : string :=
  match n with
  | FileNode _ a => a
  | DirNode ch =>
      tree_hash (map_to_list ((fun c => (node_mode c, node_address c)) <$> ch))
  end.

(** Modelled from the spec: the ContentUploader's result for one file (its
    code is missing): the (relative path, object address, mode) triple. *)
Definition upload (f : LocalFile) : string * string * Mode :=
  (lf_path f, blob_hash (lf_bytes f),
   if lf_executable f then ExecutableFile else RegularFile).

(** Modelled from the spec: the input set of the TreeBuilder (missing
    code), keyed by normalized path. *)
Definition input_set (triples : list (string * string * Mode))
    : gmap (list string) (Mode * string) :=
  list_to_map (map (fun t => (path_segments t.1.1, (t.2, t.1.2))) triples).

Definition place (e : list string * (Mode * string)) (n : Node) : Node :=
  insert_path e.1 (FileNode e.2.1 e.2.2) n.

(** Modelled from the spec: the TreeBuilder (missing code): rejects a path
    containing [..] with PathError, otherwise returns the address of the
    root tree. *)
Definition build_tree (triples : list (string * string * Mode))
    : Result string :=
  if existsb (fun t => has_dotdot (path_segments t.1.1)) triples
  then Err PathError
  else Ok (node_address
             (foldr place (DirNode ∅) (map_to_list (input_set triples)))).

(** Modelled from the spec: the stages of a sync up to the root tree
    (orchestrator, missing code): upload every file, then build. *)
Definition sync_tree_root (files : list LocalFile) : Result string :=
  build_tree (map upload files).
End TreeBuilder.

(** ** The synchronization engine: commit composer *)

(** Modelled from the spec: commits, the remote store and the faults of the
    remote calls (CommitComposer, missing code). *)
Record Commit : Type := {
  commit_tree : string;
  commit_parents : list string;
  commit_message : string
}.

Record Remote : Type := mkRemote {
  refs : gmap string string;
  commits : gmap string Commit
}.

(** What can go wrong in one attempt: each remote call may fail, and the
    head that was read may be stale by the time the ref is written
    ([stale_head = Some h]: the read saw [h], another writer moved the
    branch since). *)
Record Faults : Type := {
  read_fault : option EngineError;
  commit_fault : option EngineError;
  ref_fault : option EngineError;
  stale_head : option (option string)
}.

Inductive RefTransition : Type := Created | Updated.

Section CommitComposer.
Variable commit_hash : Commit -> string.

(** Modelled from the spec: reading the head of the branch (missing
    code); absent when the branch does not exist. *)
Definition read_head (F : Faults) (branch : string) (r : Remote)
    : Result (option string) :=
  match read_fault F with
  | Some e => Err e
  | None =>
      match stale_head F with
      | Some seen => Ok seen
      | None => Ok (refs r !! branch)
      end
  end.

(** Modelled from the spec: creating the commit object (missing code). *)
Definition create_commit (F : Faults) (c : Commit) (r : Remote)
    : Result string * Remote :=
  match commit_fault F with
  | Some e => (Err e, r)
  | None =>
      (Ok (commit_hash c),
       mkRemote (refs r) (<[commit_hash c := c]> (commits r)))
  end.

(** Modelled from the spec: advancing the ref (missing code).  Branch
    absent: create; branch present: update, conditioned on the old head
    matching what was read; a mismatch is a
    ConcurrentModificationError. *)
Definition advance_ref (F : Faults) (branch : string)
    (observed : option string) (new : string) (r : Remote)
    : Result RefTransition * Remote :=
  match ref_fault F with
  | Some e => (Err e, r)
  | None =>
      if decide (refs r !! branch = observed)
      then (Ok (match observed with None => Created | Some _ => Updated end),
            mkRemote (<[branch := new]> (refs r)) (commits r))
      else (Err ConcurrentModificationError, r)
  end.

(** Modelled from the spec: one run of the CommitComposer (missing code).
    The third component lists the remote state after each remote call. *)
Definition compose (F : Faults) (branch tree message : string) (r : Remote)
    : Result (string * RefTransition) * Remote * list Remote :=
  match read_head F branch r with
  | Err e => (Err e, r, [r])
  | Ok head =>
      let c := {| commit_tree := tree;
                  commit_parents := match head with
                                    | Some h => [h]
                                    | None => []
                                    end;
                  commit_message := message |} in
      match create_commit F c r with
      | (Err e, r1) => (Err e, r1, [r; r1])
      | (Ok a, r1) =>
          match advance_ref F branch head a r1 with
          | (Err e, r2) => (Err e, r2, [r; r1; r2])
          | (Ok t, r2) => (Ok (a, t), r2, [r; r1; r2])
          end
      end
  end.

(** Modelled from the spec: the commit stage of a sync (orchestrator,
    missing code): a ConcurrentModificationError is retried once, with a
    fresh read of the head. *)
Definition sync_commit (F1 F2 : Faults) (branch tree message : string)
    (r : Remote) : Result (string * RefTransition) * Remote * list Remote :=
  match compose F1 branch tree message r with
  | (Err ConcurrentModificationError, r1, trace1) =>
      match compose F2 branch tree message r1 with
      | (res, r2, trace2) => (res, r2, trace1 ++ trace2)
      end
  | done => done
  end.
End CommitComposer.

(** Content-address functions and a file set for the examples: the three
    files of the structural example of the specification. *)
Definition demo_blob_hash (bytes : string) : string := "blob:" +:+ bytes.
Definition demo_tree_hash (entries : list (string * (Mode * string))) : string :=
  "tree(" +:+ PyStr.join ","
    (map (fun e => e.1 +:+ "=" +:+ e.2.2) entries) +:+ ")".

Definition demo_files : list LocalFile :=
  [ {| lf_path := "a/b/c/file1"; lf_bytes := "one"; lf_executable := false |};
    {| lf_path := "a/b/file2"; lf_bytes := "two"; lf_executable := true |};
    {| lf_path := "a/file3"; lf_bytes := "three"; lf_executable := false |} ].

(** A commit-address function, faults and remotes for the examples. *)
Definition demo_commit_hash (c : Commit) : string :=
  "commit(" +:+ commit_tree c +:+ ";" +:+ PyStr.join "," (commit_parents c) +:+ ")".

Definition no_faults : Faults :=
  {| read_fault := None; commit_fault := None; ref_fault := None;
     stale_head := None |}.

Definition saw_head (seen : option string) : Faults :=
  {| read_fault := None; commit_fault := None; ref_fault := None;
     stale_head := Some seen |}.

Definition ref_write_fails (e : EngineError) : Faults :=
  {| read_fault := None; commit_fault := None; ref_fault := Some e;
     stale_head := None |}.

Definition empty_remote : Remote := mkRemote ∅ ∅.
Definition remote_at (branch head : string) : Remote :=
  mkRemote {[ branch := head ]} ∅.


(** ** The web perception tools

    The results of [services.web_tools] are read by main.py as dictionaries;
    they are records here, with the keys main.py reads as fields, the values
    that are only interpolated kept as their rendered text.  The content of
    an extraction has the shape of the requested content type.  The calls to
    [services.web_tools] are logged apart from those to the GitHub engine. *)

(** [isinstance(e, WebPerceptionError)]: the error kind of
    [services.web_tools], one of the other classes deriving from
    [Exception]; its subclasses go under its name. *)
Definition is_WebPerceptionError (e : exn) : bool :=
  match e with
  | OtherException cls _ => String.eqb cls "WebPerceptionError"
  | _ => false
  end.

Inductive WebCall : Type :=
| CallTestWebsiteLiveness (url : string) (check_errors : bool) (timeout : nat)
| CallExtractPageContent (url content_type : string) (timeout : nat).

Definition webcall_url (c : WebCall) : string :=
  match c with
  | CallTestWebsiteLiveness u _ _ => u
  | CallExtractPageContent u _ _ => u
  end.

Definition webcall_timeout (c : WebCall) : nat :=
  match c with
  | CallTestWebsiteLiveness _ _ t => t
  | CallExtractPageContent _ _ t => t
  end.

Record LivenessResult : Type := {
  lr_accessible : bool;
  lr_title : string;
  lr_load_time : string;
  lr_page_size : string;
  lr_errors : list string;
  lr_warnings : list string;
  lr_screenshot_taken : bool;
  lr_screenshot_path : option string
}.

Record Link : Type := { link_text : string; link_href : string }.
Record Image : Type := { img_alt : string; img_src : string }.
Record FormInput : Type := { input_type : string; input_name : string }.
Record Form : Type := {
  form_action : string;
  form_method : string;
  form_inputs : list FormInput
}.

Record ExtractResult (C : Type) : Type := {
  er_success : bool;
  er_error : string;
  er_content : C
}.
Arguments er_success {C} _.
Arguments er_error {C} _.
Arguments er_content {C} _.

Record WebEngine : Type := {
  test_website_liveness_resp : string -> bool -> nat -> outcome LivenessResult;
  extract_text_resp : string -> nat -> outcome (ExtractResult string);
  extract_links_resp : string -> nat -> outcome (ExtractResult (list Link));
  extract_images_resp : string -> nat -> outcome (ExtractResult (list Image));
  extract_forms_resp : string -> nat -> outcome (ExtractResult (list Form))
}.

(** [url.startswith(('http://', 'https://'))] *)
Definition has_scheme (url : string) : bool :=
  String.prefix "http://" url || String.prefix "https://" url.

(** [if not url.startswith(...): url = f'https://{url}'] *)
Definition with_scheme (url : string) : string :=
  if has_scheme url then url else "https://" +:+ url.

(** [for x in l: response += render(x)] *)
Fixpoint append_each {A} (render : A -> string) (l : list A) : string :=
  match l with
  | [] => EmptyString
  | x :: rest => render x +:+ append_each render rest
  end.

(** The two [except] clauses of a web tool, applied to what its [try] block
    gave. *)
Definition web_try (r : outcome string * list WebCall)
    : outcome string * list WebCall :=
  match r with
  | (Raises e, log) =>
      if is_WebPerceptionError e
      then (Returns ("Web Perception Error: " +:+ exn_str e), log)
      else if is_Exception e
           then (Returns ("Unexpected error: " +:+ exn_str e), log)
           else (Raises e, log)
  | (Returns text, log) => (Returns text, log)
  end.

(** The text built by [test_website_liveness_tool] from a result. *)
Definition liveness_report (url : string) (result : LivenessResult) : string :=
  let status := if lr_accessible result then "✓ ACCESSIBLE"
                else "✗ NOT ACCESSIBLE" in
  let response := "Website: " +:+ url +:+ newline +:+ "Status: " +:+ status
                  +:+ newline in
  let response := response +:+ "Title: " +:+ lr_title result +:+ newline in
  let response := response +:+ "Load Time: " +:+ lr_load_time result +:+ "s"
                  +:+ newline in
  let response := response +:+ "Page Size: " +:+ lr_page_size result
                  +:+ " characters" +:+ newline in
  let response :=
    match lr_errors result with
    | [] => response
    | _ =>
        response +:+ newline +:+ "🚨 ERRORS FOUND ("
        +:+ PyStr.str_of_nat (length (lr_errors result)) +:+ "):" +:+ newline
        +:+ append_each (fun error => "  • " +:+ error +:+ newline)
              (lr_errors result)
    end in
  let response :=
    match lr_warnings result with
    | [] => response
    | _ =>
        response +:+ newline +:+ "⚠️ WARNINGS ("
        +:+ PyStr.str_of_nat (length (lr_warnings result)) +:+ "):" +:+ newline
        +:+ append_each (fun warning => "  • " +:+ warning +:+ newline)
              (lr_warnings result)
    end in
  let response :=
    if lr_screenshot_taken result
    then response +:+ newline +:+ "📸 Screenshot saved: "
         +:+ or_default (lr_screenshot_path result) "N/A"
    else response in
  match lr_errors result, lr_warnings result with
  | [], [] => response +:+ newline +:+ "✅ No issues detected!"
  | _, _ => response
  end.

(** The [try] block of [test_website_liveness_tool]. *)
Definition test_website_liveness_tool_body (W : WebEngine) (url : string)
    : outcome string * list WebCall :=
  let url := with_scheme url in
  match test_website_liveness_resp W url true 30 with
  | Returns result =>
      (Returns (liveness_report url result), [CallTestWebsiteLiveness url true 30])
  | Raises e => (Raises e, [CallTestWebsiteLiveness url true 30])
  end.

Definition test_website_liveness_tool (W : WebEngine) (url : string)
    : outcome string * list WebCall :=
  web_try (test_website_liveness_tool_body W url).

Definition extract_format_error : string :=
  "Error: Invalid format. Use: url|content_type (text/links/images/forms)".
Definition content_type_error : string :=
  "Error: content_type must be one of: text, links, images, forms".

(** [content_type in ['text', 'links', 'images', 'forms']] *)
Definition allowed_content_type (content_type : string) : bool :=
  existsb (String.eqb content_type) ["text"; "links"; "images"; "forms"].

(** The part of the response for each content type. *)
Definition text_section (content : string) : string :=
  let text_content := PyStr.slice_to 2000 content in
  if 2000 <? PyStr.len content
  then text_content +:+ newline +:+ "... (truncated)"
  else text_content.

Definition links_section (content : list Link) : string :=
  let links := firstn 20 content in
  "Found " +:+ PyStr.str_of_nat (length content) +:+ " links (showing first "
  +:+ PyStr.str_of_nat (length links) +:+ "):" +:+ newline
  +:+ append_each
        (fun link => "• " +:+ PyStr.slice_to 50 (link_text link) +:+ " → "
                     +:+ link_href link +:+ newline)
        links.

Definition images_section (content : list Image) : string :=
  let images := firstn 15 content in
  "Found " +:+ PyStr.str_of_nat (length content) +:+ " images (showing first "
  +:+ PyStr.str_of_nat (length images) +:+ "):" +:+ newline
  +:+ append_each
        (fun img => "• " +:+ img_alt img +:+ " → " +:+ img_src img
                    +:+ newline)
        images.

(** [for i, form in enumerate(forms): ...], from index [i] on. *)
Fixpoint forms_lines (i : nat) (forms : list Form) : string :=
  match forms with
  | [] => EmptyString
  | form :: rest =>
      "Form " +:+ PyStr.str_of_nat (i + 1) +:+ ": " +:+ form_action form
      +:+ " (" +:+ form_method form +:+ ")" +:+ newline
      +:+ append_each
            (fun inp => "  - " +:+ input_type inp +:+ ": " +:+ input_name inp
                        +:+ newline)
            (firstn 5 (form_inputs form))
      +:+ forms_lines (S i) rest
  end.

Definition forms_section (content : list Form) : string :=
  "Found " +:+ PyStr.str_of_nat (length content) +:+ " forms:" +:+ newline
  +:+ forms_lines 0 content.

Definition extract_header (url content_type : string) : string :=
  "Content extracted from: " +:+ url +:+ newline +:+ "Type: " +:+ content_type
  +:+ newline +:+ newline.

(** From the call of [extract_page_content] to the [return]: the failure
    text when the result is not a success, else the header and the section
    of the content. *)
Definition extract_with {C} (resp : outcome (ExtractResult C))
    (url content_type : string) (section : C -> string)
    : outcome string * list WebCall :=
  match resp with
  | Returns result =>
      if negb (er_success result)
      then (Returns ("Failed to extract content from " +:+ url +:+ ": "
                     +:+ er_error result),
            [CallExtractPageContent url content_type 30])
      else (Returns (extract_header url content_type
                     +:+ section (er_content result)),
            [CallExtractPageContent url content_type 30])
  | Raises e => (Raises e, [CallExtractPageContent url content_type 30])
  end.

(** The [try] block of [extract_page_content_tool]. *)
Definition extract_page_content_tool_body (lower : string -> string)
    (W : WebEngine) (content_request : string)
    : outcome string * list WebCall :=
  match PyStr.split "|" content_request with
  | [p0; p1] =>
      let url := PyStr.strip p0 in
      let content_type := lower (PyStr.strip p1) in
      let url := with_scheme url in
      if negb (allowed_content_type content_type)
      then (Returns content_type_error, [])
      else if String.eqb content_type "text"
      then extract_with (extract_text_resp W url 30) url content_type text_section
      else if String.eqb content_type "links"
      then extract_with (extract_links_resp W url 30) url content_type links_section
      else if String.eqb content_type "images"
      then extract_with (extract_images_resp W url 30) url content_type
             images_section
      else extract_with (extract_forms_resp W url 30) url content_type
             forms_section
  | _ => (Returns extract_format_error, [])
  end.

Definition extract_page_content_tool (lower : string -> string)
    (W : WebEngine) (content_request : string)
    : outcome string * list WebCall :=
  web_try (extract_page_content_tool_body lower W content_request).

(** A web engine for the examples. *)
Definition demo_web : WebEngine := {|
  test_website_liveness_resp := fun _ _ _ =>
    Returns {| lr_accessible := true; lr_title := "Example Domain";
               lr_load_time := "0.42"; lr_page_size := "1256";
               lr_errors := []; lr_warnings := ["slow"];
               lr_screenshot_taken := false; lr_screenshot_path := None |};
  extract_text_resp := fun _ _ =>
    Returns {| er_success := true; er_error := ""; er_content := "hello" |};
  extract_links_resp := fun _ _ =>
    Returns {| er_success := true; er_error := "";
               er_content := [ {| link_text := "More"; link_href := "/more" |} ] |};
  extract_images_resp := fun _ _ =>
    Returns {| er_success := false; er_error := "no images"; er_content := [] |};
  extract_forms_resp := fun _ _ =>
    Raises (OtherException "WebPerceptionError" "browser crashed")
|}.

(** ** Agent mode

    The language-model agent is a parameter: [agent.run(task)] is a
    computation that may call the tools, print and raise.  Standard input
    is the list of what the user does at each prompt. *)

Definition Agent : Type := string -> M string.

(** What the user does at a prompt: type a line, or press Ctrl-C. *)
Inductive StdinEvent : Type :=
| TypedLine (text : string)
| CtrlC.

(** [isinstance(e, KeyboardInterrupt)] *)
Definition is_KeyboardInterrupt (e : exn) : bool :=
  match e with
  | NonException cls _ => String.eqb cls "KeyboardInterrupt"
  | _ => false
  end.

Definition eof_error : exn := OtherException "EOFError" "EOF when reading a line".

(** [initialize_agent_system()]; [build] stands for the construction of the
    model, the tool list and the agent. *)
Definition initialize_agent_system (build : M Agent) : M (option Agent) :=
  print "Initializing Super-Agent with GitHub and Web tools..." ;;
  try_except
    (let* agent := build in
     print "✓ Super-Agent initialized with GitHub and Web Perception tools" ;;
     ret (Some agent))
    [ (is_Exception,
       fun e => print ("✗ Error initializing agent: " +:+ exn_str e) ;; ret None) ].

(** [run_agent_task(agent, task)] *)
Definition run_agent_task (agent : option Agent) (task : string) : M unit :=
  match agent with
  | Some run =>
      if PyStr.truthy task
      then
        print (newline +:+ "--- Running Task: '" +:+ task +:+ "' ---") ;;
        try_except
          (let* response := run task in
           print (newline +:+ "--- Agent Response ---") ;;
           print response ;;
           print ("--- Task Completed ---" +:+ newline))
          [ (is_Exception,
             fun e => print ("✗ Error running task: " +:+ exn_str e)) ]
      else ret tt
  | None => ret tt
  end.

Definition agent_prompt : string := "Agent> ".
Definition exiting_text : string :=
  newline +:+ newline +:+ "Exiting agent mode...".

(** [task.lower() in ['quit', 'exit', 'q']] *)
Definition is_quit (lower : string -> string) (task : string) : bool :=
  existsb (String.eqb (lower task)) ["quit"; "exit"; "q"].

(** The [try] block of the loop of [cmd_agent_mode] once the line is read
    and is no quit word, with its [except KeyboardInterrupt] clause; it
    yields whether the loop goes on. *)
Definition loop_turn (agent : Agent) (task : string) : M bool :=
  try_except
    ((if PyStr.truthy task
      then run_agent_task (Some agent) task
      else ret tt) ;;
     ret true)
    [ (is_KeyboardInterrupt, fun _ => print exiting_text ;; ret false) ].

(** The [while True:] loop of [cmd_agent_mode].  [input] writes its prompt,
    then gives the typed line, raises [KeyboardInterrupt] on Ctrl-C, and
    raises [EOFError] when the input has ended. *)
Fixpoint agent_loop (lower : string -> string) (agent : Agent)
    (stdin : list StdinEvent) : M unit :=
  match stdin with
  | [] => print agent_prompt ;; raise eof_error
  | CtrlC :: _ => print agent_prompt ;; print exiting_text
  | TypedLine text :: rest =>
      print agent_prompt ;;
      let task := PyStr.strip text in
      if is_quit lower task then ret tt
      else
        let* go_on := loop_turn agent task in
        if go_on then agent_loop lower agent rest else ret tt
  end.

Definition agent_help : list string :=
  [ newline +:+ "🤖 GitHub Agent Mode";
    "Type your requests in natural language, or 'quit' to exit.";
    "Examples:";
    "  - List my repositories";
    "  - Create a repo called 'my-project'";
    "  - Upload this project to a new repo";
    "  - Test if google.com is working";
    "  - Extract all links from example.com";
    "" ].

(** [cmd_agent_mode(args)], with [args.task] and the standard input. *)
Definition cmd_agent_mode (lower : string -> string) (build : M Agent)
    (task : option string)
    (stdin : list StdinEvent) : M unit :=
  let* agent := initialize_agent_system build in
  match agent with
  | None => ret tt
  | Some run =>
      match task with
      | Some t =>
          if PyStr.truthy t then run_agent_task (Some run) t
          else for_each agent_help print ;; agent_loop lower run stdin
      | None => for_each agent_help print ;; agent_loop lower run stdin
      end
  end.

(** The lines typed are all proper lines, none of them a quit word. *)
Definition no_quit (lower : string -> string) (lines : list string) : Prop :=
  Forall (fun text => is_quit lower (PyStr.strip text) = false) lines.

(** The agent never lets an exception outside [Exception] through. *)
Definition agent_contained (agent : Agent) : Prop :=
  forall task w e, fst (agent task w) = Raises e -> is_Exception e = true.

(** Agents for the examples: one that answers by echoing the task, one that
    is interrupted. *)
Definition echo_agent : Agent := fun task => ret ("done: " +:+ task).
Definition interrupted_agent : Agent :=
  fun _ => raise (NonException "KeyboardInterrupt" "").

(** ** Effects a computation is allowed

    Two statements about what a computation does to the world, used for the
    tools and the handlers. *)

(** [c] prints nothing and makes at most [n] engine calls, which it appends
    to the log. *)
Definition quiet_within {A} (n : nat) (c : M A) : Prop :=
  forall w, exists new,
    snd (c w) = mkWorld (calls w ++ new) (stdout w) /\ length new <= n.

(** [c] only appends: to the call log and to the printed texts. *)
Definition extends {A} (c : M A) : Prop :=
  forall w, exists new out,
    snd (c w) = mkWorld (calls w ++ new) (stdout w ++ out).

(** The lines [cmd_list_repos] prints for one repository: its name with the
    visibility, then the description when there is a non-empty one. *)
Definition repo_lines (repo : RepoInfo) : list string :=
  ("  • " +:+ name repo +:+ " - "
   +:+ (if private repo then "🔒 Private" else "🌍 Public"))
  :: match description repo with
     | Some d => if PyStr.truthy d then ["    " +:+ d] else []
     | None => []
     end.

(** The fourth pipe-field of a create input is missing or blank. *)
Definition org_blank (repo_info : string) : Prop :=
  match nth_error (PyStr.split "|" repo_info) 3 with
  | None => True
  | Some o => PyStr.strip o = EmptyString
  end.

(** An engine that knows the user and has no repository. *)
Definition empty_account : Engine := {|
  get_user_info_resp := get_user_info_resp ok_engine;
  list_repositories_resp := fun _ => Returns [];
  create_repository_resp := create_repository_resp ok_engine;
  sync_project_to_repo_resp := sync_project_to_repo_resp ok_engine;
  create_repo_and_sync_resp := fun _ _ _ _ _ _ => Returns None
|}.

(** * Properties *)

(** ** Facts about the string helpers *)

Lemma split_length (sep : ascii) (s : string) :
  length (PyStr.split sep s) = S (PyStr.count sep s).
Proof.
  induction s as [|c s IH]; simpl; [reflexivity|].
  destruct (Ascii.eqb c sep); simpl.
  - now rewrite IH.
  - destruct (PyStr.split sep s) as [|p ps]; simpl in *; [discriminate|lia].
Qed.

Lemma split_nonempty (sep : ascii) (s : string) : PyStr.split sep s <> [].
Proof.
  intros H. pose proof (split_length sep s) as L. rewrite H in L. discriminate.
Qed.

Lemma count_rev_onto (sep : ascii) (s acc : string) :
  PyStr.count sep (PyStr.rev_onto s acc) = PyStr.count sep s + PyStr.count sep acc.
Proof.
  revert acc. induction s as [|c s IH]; intros acc; simpl; [reflexivity|].
  rewrite IH. simpl. lia.
Qed.

Lemma count_reverse (sep : ascii) (s : string) :
  PyStr.count sep (PyStr.reverse s) = PyStr.count sep s.
Proof. unfold PyStr.reverse. rewrite count_rev_onto. simpl. lia. Qed.

(** Dropping spaces removes no occurrence of a character that is no space
    and no byte of one. *)
Lemma count_drop_spaces (sep : ascii) (sp2 : ascii -> ascii -> bool)
    (sp3 : ascii -> ascii -> ascii -> bool) (s : string) :
  PyStr.isspace sep = false ->
  (forall a b, sp2 a b = true -> Ascii.eqb a sep = false /\ Ascii.eqb b sep = false) ->
  (forall a b c, sp3 a b c = true ->
     Ascii.eqb a sep = false /\ Ascii.eqb b sep = false /\ Ascii.eqb c sep = false) ->
  PyStr.count sep (PyStr.drop_spaces sp2 sp3 s) = PyStr.count sep s.
Proof.
  intros Hsep H2 H3.
  assert (Hn : forall n s0, String.length s0 <= n ->
            PyStr.count sep (PyStr.drop_spaces sp2 sp3 s0) = PyStr.count sep s0).
  { induction n as [|n IH]; intros s0 Hlen.
    - destruct s0; simpl in *; [reflexivity|lia].
    - destruct s0 as [|a s1]; [reflexivity|]. simpl in Hlen.
      cbn [PyStr.drop_spaces].
      destruct (PyStr.isspace a) eqn:Ha.
      + rewrite IH by lia. simpl.
        destruct (Ascii.eqb_spec a sep) as [->|_]; [congruence|reflexivity].
      + destruct s1 as [|b s2]; [reflexivity|]. simpl in Hlen.
        destruct (sp2 a b) eqn:Hab.
        * destruct (H2 a b Hab) as [Ea Eb].
          rewrite IH by lia. simpl. now rewrite Ea, Eb.
        * destruct s2 as [|c s3]; [reflexivity|]. simpl in Hlen.
          destruct (sp3 a b c) eqn:Habc; [|reflexivity].
          destruct (H3 a b c Habc) as (Ea & Eb & Ec).
          rewrite IH by lia. simpl. now rewrite Ea, Eb, Ec. }
  now apply (Hn (String.length s)).
Qed.

Lemma isspace2_not_slash (a b : ascii) :
  PyStr.isspace2 a b = true ->
  Ascii.eqb a "/" = false /\ Ascii.eqb b "/" = false.
Proof.
  unfold PyStr.isspace2. intros H.
  split; apply Ascii.eqb_neq; intros ->; simpl in H;
    rewrite ?andb_false_r in H; discriminate.
Qed.

Lemma isspace3_not_slash (a b c : ascii) :
  PyStr.isspace3 a b c = true ->
  Ascii.eqb a "/" = false /\ Ascii.eqb b "/" = false /\ Ascii.eqb c "/" = false.
Proof.
  unfold PyStr.isspace3. intros H.
  repeat split; apply Ascii.eqb_neq; intros ->; simpl in H;
    rewrite ?andb_false_r, ?andb_false_l in H; simpl in H;
    rewrite ?andb_false_r, ?andb_false_l, ?orb_false_r in H;
    try discriminate.
Qed.

Lemma count_lstrip (s : string) :
  PyStr.count "/" (PyStr.lstrip s) = PyStr.count "/" s.
Proof.
  unfold PyStr.lstrip. apply count_drop_spaces;
    [reflexivity|apply isspace2_not_slash|apply isspace3_not_slash].
Qed.

Lemma count_rstrip (s : string) :
  PyStr.count "/" (PyStr.rstrip s) = PyStr.count "/" s.
Proof.
  unfold PyStr.rstrip. rewrite count_reverse, count_drop_spaces, count_reverse;
    [reflexivity|reflexivity| |].
  - intros a b H. apply isspace2_not_slash in H. tauto.
  - intros a b c H. apply isspace3_not_slash in H. tauto.
Qed.

(** Stripping a field does not change the number of its '/'-parts. *)
Lemma split_slash_strip (s : string) :
  length (PyStr.split "/" (PyStr.strip s)) = length (PyStr.split "/" s).
Proof.
  rewrite !split_length. unfold PyStr.strip.
  now rewrite count_rstrip, count_lstrip.
Qed.

(** ** Facts about the effect monad *)

Lemma for_each_print_returns {A} (l : list A) (text : A -> list string) (w : World)
    (body : A -> M unit) :
  (forall x w0, body x w0 = (Returns tt, mkWorld (calls w0) (stdout w0 ++ text x))) ->
  for_each l body w =
    (Returns tt, mkWorld (calls w) (stdout w ++ concat (map text l))).
Proof.
  intros Hbody. revert w.
  induction l as [|x l IH]; intros w; simpl.
  - unfold ret. rewrite app_nil_r. now destruct w.
  - unfold bind. rewrite Hbody, IH. simpl. now rewrite <- app_assoc.
Qed.

Lemma index_some (l : list string) (i : nat) (x : string) (w : World) :
  nth_error l i = Some x -> index l i w = (Returns x, w).
Proof. intros H. unfold index. now rewrite H. Qed.

Lemma parse_repo_fields_ok (lower : string -> string)
    (p0 p1 p2 : string) (rest : list string) (w : World) :
  parse_repo_fields lower (p0 :: p1 :: p2 :: rest) w =
    (Returns (PyStr.strip p0, PyStr.strip p1,
              String.eqb (lower (PyStr.strip p2)) "true",
              org_field rest), w).
Proof.
  unfold parse_repo_fields, bind, index, ret; simpl.
  destruct rest as [|p3 rest]; simpl; [reflexivity|].
  destruct (PyStr.truthy (PyStr.strip p3)); reflexivity.
Qed.

Lemma three_fields (parts : list string) :
  3 <= length parts ->
  exists p0 p1 p2 rest, parts = p0 :: p1 :: p2 :: rest.
Proof.
  intros H. destruct parts as [|p0 [|p1 [|p2 rest]]]; simpl in H; try lia.
  now exists p0, p1, p2, rest.
Qed.

(** ** The agent tools *)

Example list_tool_ok :
  fst (list_my_github_repos ok_engine "anything" initial_world) =
  Returns "SUCCESS! Connected as 'octo'. Found 2 repositories: alpha, beta".
Proof. reflexivity. Qed.

Example create_tool_ok :
  create_github_repo PyStr.lower_ascii ok_engine "demo| A demo |TRUE |" initial_world =
  (Returns "SUCCESS! Repository 'demo' created: https://github.com/octo/demo",
   mkWorld [CallCreateRepository "demo" "A demo" true None] []).
Proof. reflexivity. Qed.

Example sync_tool_ok :
  sync_project_to_github ok_engine " octo/demo | dev" initial_world =
  (Returns "SUCCESS! Synced 2 files to octo/demo on branch dev",
   mkWorld [CallSyncProjectToRepo "octo" "demo" "." "dev"] []).
Proof. reflexivity. Qed.

Example upload_tool_ok :
  create_repo_and_upload_project PyStr.lower_ascii ok_engine "demo|d|false|acme" initial_world =
  (Returns "SUCCESS! Created repository and synced 1 files: https://github.com/octo/demo",
   mkWorld [CallCreateRepoAndSync "demo" "d" false "." (Some "acme")] []).
Proof. reflexivity. Qed.

Lemma tool_clauses_catch (e : exn) (w : World) :
  is_Exception e = true ->
  dispatch tool_clauses e w = (Returns (tool_diagnosis e), w).
Proof.
  intros He. unfold tool_diagnosis. destruct e; simpl in *; try reflexivity.
  discriminate.
Qed.

Lemma run_tool_try (lower : string -> string)
    (E : Engine) (t : Tool) (input : string) :
  run_tool lower E t input = try_except (tool_body lower E t input) tool_clauses.
Proof. destruct t; reflexivity. Qed.

(** C4, as the code has it. Whatever exception deriving from [Exception]
    is raised inside the [try] block of an agent tool, be it a
    [GitHubError] or any other, the tool returns a plain text ("GitHub
    Error: ..." or "Unexpected error: ...") in the world the block left, and
    raises nothing. *)
Theorem tool_returns_error_text (lower : string -> string)
    (E : Engine) (t : Tool) (input : string)
    (w w' : World) (e : exn) :
  tool_body lower E t input w = (Raises e, w') ->
  is_Exception e = true ->
  run_tool lower E t input w = (Returns (tool_diagnosis e), w').
Proof.
  intros Hbody He. rewrite run_tool_try. unfold try_except.
  rewrite Hbody. now apply tool_clauses_catch.
Qed.

Lemma tool_returns_error_text_witness :
  run_tool PyStr.lower_ascii (failing_engine (GitHubError "rate limit exceeded" (Some 403)))
    CreateGithubRepo "demo|d|true" initial_world =
  (Returns "GitHub Error: rate limit exceeded",
   mkWorld [CallCreateRepository "demo" "d" true None] []).
Proof.
  apply (tool_returns_error_text PyStr.lower_ascii (failing_engine (GitHubError "rate limit exceeded" (Some 403)))
           CreateGithubRepo "demo|d|true" initial_world
           (mkWorld [CallCreateRepository "demo" "d" true None] [])
           (GitHubError "rate limit exceeded" (Some 403)));
    reflexivity.
Defined.

(** A tool whose [try] block returns, returns the same text: with the
    theorem above, a tool raises only what [except Exception] lets
    through. *)
(** C4 as stated fails: a [KeyboardInterrupt] raised while the engine is
    called inside [sync_project_to_github] is caught by neither clause; the
    tool returns no text and the exception leaves it. *)
Lemma agent_tool_propagates_interrupt :
  ~ (fst (tool_body PyStr.lower_ascii
            (failing_engine (NonException "KeyboardInterrupt" ""))
            SyncProjectToGithub "octo/demo" initial_world) =
     Raises (NonException "KeyboardInterrupt" "") ->
     exists text,
       fst (run_tool PyStr.lower_ascii
              (failing_engine (NonException "KeyboardInterrupt" ""))
              SyncProjectToGithub "octo/demo" initial_world) = Returns text).
Proof. intros H. destruct (H eq_refl) as [text Htext]. discriminate Htext. Qed.

Lemma tool_returns_body_text (lower : string -> string)
    (E : Engine) (t : Tool) (input : string)
    (w w' : World) (text : string) :
  tool_body lower E t input w = (Returns text, w') ->
  run_tool lower E t input w = (Returns text, w').
Proof.
  intros Hbody. rewrite run_tool_try. unfold try_except. now rewrite Hbody.
Qed.

Example tool_other_exception :
  fst (run_tool PyStr.lower_ascii (listing_fails (OtherException "ConnectionError" "timed out"))
         ListMyGithubRepos "" initial_world) =
  Returns "Unexpected error: timed out".
Proof. reflexivity. Qed.

Lemma short_input_fields (lower : string -> string)
    (E : Engine) (repo_info : string) (w : World) :
  length (PyStr.split "|" repo_info) < 3 ->
  create_github_repo lower E repo_info w = (Returns create_format_error, w) /\
  create_repo_and_upload_project lower E repo_info w = (Returns create_format_error, w).
Proof.
  intros Hlen. apply Nat.ltb_lt in Hlen.
  unfold create_github_repo, create_repo_and_upload_project, try_except,
    create_github_repo_body, create_repo_and_upload_project_body.
  rewrite Hlen. split; reflexivity.
Qed.

(** C6. For an input with fewer than three pipe-separated fields, both
    [create_github_repo] and [create_repo_and_upload_project] return the
    format-error text and leave the world as it was: no call to
    [create_repository] or [create_repo_and_sync] is made. *)
Theorem short_input_rejected (lower : string -> string)
    (E : Engine) (repo_info : string) (w : World) :
  length (PyStr.split "|" repo_info) < 3 ->
  create_github_repo lower E repo_info w = (Returns create_format_error, w) /\
  create_repo_and_upload_project lower E repo_info w = (Returns create_format_error, w).
Proof. apply short_input_fields. Qed.

Lemma short_input_rejected_witness :
  create_github_repo PyStr.lower_ascii ok_engine "demo|only two" initial_world =
    (Returns create_format_error, initial_world) /\
  create_repo_and_upload_project PyStr.lower_ascii ok_engine "demo|only two" initial_world =
    (Returns create_format_error, initial_world).
Proof.
  apply (short_input_rejected PyStr.lower_ascii ok_engine "demo|only two" initial_world).
  vm_compute. lia.
Defined.

Lemma three_fields_pass (p0 p1 p2 : string) (rest : list string) :
  (length (p0 :: p1 :: p2 :: rest) <? 3) = false.
Proof. reflexivity. Qed.

Lemma create_github_repo_call (lower : string -> string)
    (E : Engine) (p0 p1 p2 : string)
    (rest : list string) (repo_info : string) (w : World) :
  PyStr.split "|" repo_info = p0 :: p1 :: p2 :: rest ->
  calls (snd (create_github_repo lower E repo_info w)) =
    calls w ++ [CallCreateRepository (PyStr.strip p0) (PyStr.strip p1)
                  (String.eqb (lower (PyStr.strip p2)) "true")
                  (org_field rest)].
Proof.
  intros Hparts.
  unfold create_github_repo, try_except, create_github_repo_body.
  rewrite Hparts, three_fields_pass.
  unfold bind at 1. rewrite parse_repo_fields_ok.
  unfold bind, create_repository, invoke, ret.
  destruct (create_repository_resp E _ _ _ _ _) as [repo|e]; [reflexivity|].
  destruct e; reflexivity.
Qed.

Lemma create_repo_and_upload_project_call (lower : string -> string)
    (E : Engine) (p0 p1 p2 : string)
    (rest : list string) (repo_info : string) (w : World) :
  PyStr.split "|" repo_info = p0 :: p1 :: p2 :: rest ->
  calls (snd (create_repo_and_upload_project lower E repo_info w)) =
    calls w ++ [CallCreateRepoAndSync (PyStr.strip p0) (PyStr.strip p1)
                  (String.eqb (lower (PyStr.strip p2)) "true")
                  "." (org_field rest)].
Proof.
  intros Hparts.
  unfold create_repo_and_upload_project, try_except,
    create_repo_and_upload_project_body.
  rewrite Hparts, three_fields_pass.
  unfold bind at 1. rewrite parse_repo_fields_ok.
  unfold bind, create_repo_and_sync, invoke, ret.
  destruct (create_repo_and_sync_resp E _ _ _ _ _ _) as [[r|]|e];
    [reflexivity|reflexivity|].
  destruct e; reflexivity.
Qed.

(** C7. For an input with at least three pipe-fields, each of
    [create_github_repo] and [create_repo_and_upload_project] makes exactly
    one engine call, and that call asks for a private repository if and only
    if the third field, stripped and lowercased, is the string "true". *)
Theorem private_iff_third_field_true (lower : string -> string)
    (E : Engine) (repo_info : string)
    (w : World) :
  3 <= length (PyStr.split "|" repo_info) ->
  exists (third nm descr : string) (org : option string) (priv : bool),
    nth_error (PyStr.split "|" repo_info) 2 = Some third /\
    (priv = true <-> lower (PyStr.strip third) = "true") /\
    calls (snd (create_github_repo lower E repo_info w)) =
      calls w ++ [CallCreateRepository nm descr priv org] /\
    calls (snd (create_repo_and_upload_project lower E repo_info w)) =
      calls w ++ [CallCreateRepoAndSync nm descr priv "." org].
Proof.
  intros Hlen. destruct (three_fields _ Hlen) as (p0 & p1 & p2 & rest & Hparts).
  exists p2, (PyStr.strip p0), (PyStr.strip p1), (org_field rest),
    (String.eqb (lower (PyStr.strip p2)) "true").
  split; [now rewrite Hparts|].
  split; [apply String.eqb_eq|].
  split.
  - now apply create_github_repo_call.
  - now apply create_repo_and_upload_project_call.
Qed.

Lemma private_iff_third_field_true_witness :
  exists (third nm descr : string) (org : option string) (priv : bool),
    nth_error (PyStr.split "|" "demo|d| True |") 2 = Some third /\
    (priv = true <-> PyStr.lower_ascii (PyStr.strip third) = "true") /\
    calls (snd (create_github_repo PyStr.lower_ascii ok_engine "demo|d| True |" initial_world)) =
      calls initial_world ++ [CallCreateRepository nm descr priv org] /\
    calls (snd (create_repo_and_upload_project PyStr.lower_ascii ok_engine "demo|d| True |"
                  initial_world)) =
      calls initial_world ++ [CallCreateRepoAndSync nm descr priv "." org].
Proof.
  apply (private_iff_third_field_true PyStr.lower_ascii ok_engine "demo|d| True |" initial_world).
  vm_compute. lia.
Defined.

Example private_yes :
  calls (snd (create_github_repo PyStr.lower_ascii ok_engine "demo|d| True |" initial_world)) =
  [CallCreateRepository "demo" "d" true None].
Proof. reflexivity. Qed.

Example private_no :
  calls (snd (create_github_repo PyStr.lower_ascii ok_engine "demo|d|yes|" initial_world)) =
  [CallCreateRepository "demo" "d" false None].
Proof. reflexivity. Qed.

(** ** The sync surfaces *)

Lemma sync_tool_rejects (E : Engine) (repo_info : string) (w : World) :
  length (PyStr.split "/" (first_field repo_info)) <> 2 ->
  sync_project_to_github E repo_info w = (Returns repository_format_error, w).
Proof.
  intros Hlen. rewrite <- split_slash_strip in Hlen. unfold first_field in Hlen.
  unfold sync_project_to_github, try_except, sync_project_to_github_body.
  destruct (PyStr.split "|" repo_info) as [|p0 rest] eqn:Hparts;
    [now apply split_nonempty in Hparts|].
  simpl in Hlen. change (length (p0 :: rest) <? 1) with false. cbv iota.
  unfold bind at 1. rewrite (index_some _ 0 p0) by reflexivity.
  apply Nat.eqb_neq in Hlen. rewrite Hlen. reflexivity.
Qed.

Lemma sync_tool_call (E : Engine) (repo_info p0 owner repo : string)
    (rest : list string) (w : World) :
  PyStr.split "|" repo_info = p0 :: rest ->
  PyStr.split "/" (PyStr.strip p0) = [owner; repo] ->
  calls (snd (sync_project_to_github E repo_info w)) =
    calls w ++ [CallSyncProjectToRepo owner repo "." (branch_field rest)].
Proof.
  intros Hparts Hrepo.
  unfold sync_project_to_github, try_except, sync_project_to_github_body.
  rewrite Hparts. change (length (p0 :: rest) <? 1) with false. cbv iota.
  unfold bind at 1. rewrite (index_some _ 0 p0) by reflexivity.
  rewrite Hrepo. change (negb (length [owner; repo] =? 2)) with false.
  cbv iota. unfold bind at 1.
  change (unpack2 [owner; repo] w) with (Returns (owner, repo), w).
  cbv iota beta.
  assert (Hbranch : forall w0,
    (if 1 <? length (p0 :: rest)
     then let* p1 := index (p0 :: rest) 1 in
          if PyStr.truthy (PyStr.strip p1)
          then let* p1' := index (p0 :: rest) 1 in ret (PyStr.strip p1')
          else ret "main"
     else ret "main") w0 = (Returns (branch_field rest), w0)).
  { intros w0. destruct rest as [|p1 rest']; [reflexivity|].
    change (1 <? length (p0 :: p1 :: rest')) with true. cbv iota.
    unfold bind, index, ret; simpl.
    destruct (PyStr.truthy (PyStr.strip p1)); reflexivity. }
  unfold bind at 1. rewrite Hbranch.
  unfold bind, sync_project_to_repo, invoke, ret.
  destruct (sync_project_to_repo_resp E _ _ _ _ _) as [synced|e]; [reflexivity|].
  destruct e; reflexivity.
Qed.

Lemma cmd_sync_rejects (E : Engine) (args : SyncArgs) (w : World) :
  length (PyStr.split "/" (s_repository args)) <> 2 ->
  cmd_sync_project E args w =
    (Returns tt, mkWorld (calls w) (stdout w ++ [cli_repository_format_error])).
Proof.
  intros Hlen.
  unfold cmd_sync_project, try_except, cmd_sync_project_body, bind.
  destruct (PyStr.split "/" (s_repository args)) as [|a [|b [|c l]]];
    simpl in *; try reflexivity.
  lia.
Qed.

Lemma cmd_sync_call (E : Engine) (args : SyncArgs) (owner repo : string)
    (w : World) :
  PyStr.split "/" (s_repository args) = [owner; repo] ->
  calls (snd (cmd_sync_project E args w)) =
    calls w ++ [CallSyncProjectToRepo owner repo (s_path args) (s_branch args)].
Proof.
  intros Hrepo.
  unfold cmd_sync_project, try_except, cmd_sync_project_body, bind.
  rewrite Hrepo. simpl unpack2. unfold ret at 1.
  unfold sync_project_to_repo, invoke.
  destruct (sync_project_to_repo_resp E _ _ _ _ _) as [synced|e]; [reflexivity|].
  destruct e; reflexivity.
Qed.

Lemma cmd_create_and_sync_call (E : Engine) (args : CreateSyncArgs)
    (w : World) :
  calls (snd (cmd_create_and_sync E args w)) =
    calls w ++ [CallCreateRepoAndSync (cs_name args) (cs_description args)
                  (cs_private args) (cs_path args) (cs_org args)].
Proof.
  unfold cmd_create_and_sync, try_except, cmd_create_and_sync_body, bind,
    create_repo_and_sync, invoke.
  destruct (create_repo_and_sync_resp E _ _ _ _ _ _) as [[r|]|e];
    [reflexivity|reflexivity|].
  destruct e; reflexivity.
Qed.

(** C5, as the code has it. The agent tool tests the first pipe-field of its
    input, the CLI command tests its repository argument as a whole (it has
    no pipe-fields): when what a surface tests does not split on '/' into
    exactly two parts, that surface reports the repository format error at
    once and makes no engine call. *)
Theorem malformed_repository_rejected (E : Engine) (repo_info : string)
    (args : SyncArgs) (w : World) :
  length (PyStr.split "/" (first_field repo_info)) <> 2 ->
  length (PyStr.split "/" (s_repository args)) <> 2 ->
  sync_project_to_github E repo_info w = (Returns repository_format_error, w) /\
  cmd_sync_project E args w =
    (Returns tt, mkWorld (calls w) (stdout w ++ [cli_repository_format_error])).
Proof.
  intros Htool Hcli. split.
  - now apply sync_tool_rejects.
  - now apply cmd_sync_rejects.
Qed.

Lemma malformed_repository_rejected_witness :
  sync_project_to_github ok_engine "octo-demo|main" initial_world =
    (Returns repository_format_error, initial_world) /\
  cmd_sync_project ok_engine
    {| s_repository := "octo/demo/extra"; s_path := "."; s_branch := "main" |}
    initial_world =
    (Returns tt,
     mkWorld (calls initial_world)
       (stdout initial_world ++ [cli_repository_format_error])).
Proof.
  apply (malformed_repository_rejected ok_engine "octo-demo|main"
           {| s_repository := "octo/demo/extra"; s_path := ".";
              s_branch := "main" |} initial_world);
    vm_compute; lia.
Defined.

(** C5 as stated fails on the CLI: the repository argument "a|b/c" has the
    first pipe-field "a", which does not split on '/' into two parts, and
    yet [cmd_sync_project] calls [sync_project_to_repo]. *)
Lemma cli_sync_ignores_pipe_fields :
  ~ (length (PyStr.split "/" (first_field "a|b/c")) <> 2 ->
     Forall (fun c => is_sync_call c = false)
       (calls (snd (cmd_sync_project ok_engine
                      {| s_repository := "a|b/c"; s_path := ".";
                         s_branch := "main" |}
                      initial_world)))).
Proof.
  intros H.
  assert (Hfield : length (PyStr.split "/" (first_field "a|b/c")) <> 2)
    by (vm_compute; lia).
  apply H in Hfield. apply Forall_inv in Hfield. discriminate Hfield.
Qed.

Example cli_sync_pipe_call :
  calls (snd (cmd_sync_project ok_engine
                {| s_repository := "a|b/c"; s_path := "."; s_branch := "main" |}
                initial_world)) =
  [CallSyncProjectToRepo "a|b" "c" "." "main"].
Proof. reflexivity. Qed.

(** C8, as the code has it. The agent tool targets the branch "main" when
    the branch field is omitted or blank; the CLI sync command targets
    "main" when the [--branch] option is omitted. *)
Theorem default_branch_is_main (E : Engine) (repo_info owner repo : string)
    (repository owner' repo' : string) (path : option string) (w : World) :
  branch_blank repo_info ->
  PyStr.split "/" (PyStr.strip (first_field repo_info)) = [owner; repo] ->
  PyStr.split "/" repository = [owner'; repo'] ->
  calls (snd (sync_project_to_github E repo_info w)) =
    calls w ++ [CallSyncProjectToRepo owner repo "." "main"] /\
  calls (snd (main E (LineSync repository path None) w)) =
    calls w ++ [CallSyncProjectToRepo owner' repo' (or_default path ".") "main"].
Proof.
  intros Hblank Hrepo Hcli. split.
  - unfold first_field, branch_blank in *.
    destruct (PyStr.split "|" repo_info) as [|p0 rest] eqn:Hparts;
      [now apply split_nonempty in Hparts|].
    simpl in Hrepo, Hblank.
    rewrite (sync_tool_call E repo_info p0 owner repo rest w Hparts Hrepo).
    destruct rest as [|p1 rest']; [reflexivity|].
    simpl in *. now rewrite Hblank.
  - unfold main. simpl. now apply cmd_sync_call.
Qed.

Lemma default_branch_is_main_witness :
  calls (snd (sync_project_to_github ok_engine "octo/demo|   " initial_world)) =
    calls initial_world ++ [CallSyncProjectToRepo "octo" "demo" "." "main"] /\
  calls (snd (main ok_engine (LineSync "octo/demo" (Some "src") None)
                initial_world)) =
    calls initial_world ++
    [CallSyncProjectToRepo "octo" "demo" (or_default (Some "src") ".") "main"].
Proof.
  apply (default_branch_is_main ok_engine "octo/demo|   " "octo" "demo"
           "octo/demo" "octo" "demo" (Some "src") initial_world);
    reflexivity.
Defined.

(** C8 as stated fails on the CLI: with [--branch ""] the branch is blank,
    and the sync command targets the branch "", not "main". *)
Lemma cli_blank_branch_not_main :
  ~ (PyStr.strip "" = "" ->
     Forall (fun c => call_branch c = Some "main")
       (calls (snd (main ok_engine (LineSync "octo/demo" None (Some ""))
                      initial_world)))).
Proof.
  intros H. specialize (H eq_refl). apply Forall_inv in H. discriminate H.
Qed.

Example cli_blank_branch_call :
  calls (snd (main ok_engine (LineSync "octo/demo" None (Some ""))
                initial_world)) =
  [CallSyncProjectToRepo "octo" "demo" "." ""].
Proof. reflexivity. Qed.

Lemma sync_tool_calls (E : Engine) (repo_info : string) (w : World) :
  calls (snd (sync_project_to_github E repo_info w)) =
    calls w ++
    match PyStr.split "/" (PyStr.strip (first_field repo_info)) with
    | [owner; repo] =>
        [CallSyncProjectToRepo owner repo "."
           (branch_field (tl (PyStr.split "|" repo_info)))]
    | _ => []
    end.
Proof.
  unfold first_field.
  destruct (PyStr.split "|" repo_info) as [|p0 rest] eqn:Hparts;
    [now apply split_nonempty in Hparts|].
  simpl hd. simpl tl.
  destruct (PyStr.split "/" (PyStr.strip p0)) as [|a [|b [|c l]]] eqn:Hrepo.
  1,2,4: rewrite app_nil_r, sync_tool_rejects; [reflexivity|];
    unfold first_field; rewrite Hparts; simpl;
    rewrite <- split_slash_strip, Hrepo; simpl; lia.
  now apply (sync_tool_call E repo_info p0).
Qed.

Lemma upload_tool_calls (lower : string -> string) (E : Engine)
    (repo_info : string) (w : World) :
  calls (snd (create_repo_and_upload_project lower E repo_info w)) =
    calls w ++
    match PyStr.split "|" repo_info with
    | p0 :: p1 :: p2 :: rest =>
        [CallCreateRepoAndSync (PyStr.strip p0) (PyStr.strip p1)
           (String.eqb (lower (PyStr.strip p2)) "true") "." (org_field rest)]
    | _ => []
    end.
Proof.
  destruct (PyStr.split "|" repo_info) as [|p0 [|p1 [|p2 rest]]] eqn:Hparts.
  1,2,3: rewrite app_nil_r,
           (proj2 (short_input_fields lower E repo_info w
                     ltac:(rewrite Hparts; simpl; lia)));
         reflexivity.
  now apply create_repo_and_upload_project_call.
Qed.

Lemma cmd_sync_calls (E : Engine) (args : SyncArgs) (w : World) :
  calls (snd (cmd_sync_project E args w)) =
    calls w ++
    match PyStr.split "/" (s_repository args) with
    | [owner; repo] =>
        [CallSyncProjectToRepo owner repo (s_path args) (s_branch args)]
    | _ => []
    end.
Proof.
  destruct (PyStr.split "/" (s_repository args)) as [|a [|b [|c l]]] eqn:Hrepo.
  1,2,4: rewrite app_nil_r, cmd_sync_rejects; [reflexivity|];
    rewrite Hrepo; simpl; lia.
  now apply cmd_sync_call.
Qed.

(** C9. The agent tools [sync_project_to_github] and
    [create_repo_and_upload_project] make their engine call, one for every
    well-formed input and none otherwise, with the local path "." whatever
    the input says; the CLI commands make theirs with the value of [--path]
    (default "."). *)
Theorem agent_tools_sync_cwd (lower : string -> string) (E : Engine)
    (repo_info : string) (repository nm : string)
    (descr org path branch : option string) (public private_flag : bool)
    (w : World) :
  calls (snd (sync_project_to_github E repo_info w)) =
    calls w ++
    match PyStr.split "/" (PyStr.strip (first_field repo_info)) with
    | [owner; repo] =>
        [CallSyncProjectToRepo owner repo "."
           (branch_field (tl (PyStr.split "|" repo_info)))]
    | _ => []
    end /\
  calls (snd (create_repo_and_upload_project lower E repo_info w)) =
    calls w ++
    match PyStr.split "|" repo_info with
    | p0 :: p1 :: p2 :: rest =>
        [CallCreateRepoAndSync (PyStr.strip p0) (PyStr.strip p1)
           (String.eqb (lower (PyStr.strip p2)) "true") "." (org_field rest)]
    | _ => []
    end /\
  calls (snd (main E (LineSync repository path branch) w)) =
    calls w ++
    match PyStr.split "/" repository with
    | [owner; repo] =>
        [CallSyncProjectToRepo owner repo (or_default path ".")
           (or_default branch "main")]
    | _ => []
    end /\
  calls (snd (main E (LineCreateAndSync nm descr public org path
                        private_flag) w)) =
    calls w ++
    [CallCreateRepoAndSync nm (or_default descr "") (negb public)
       (or_default path ".") org].
Proof.
  split; [apply sync_tool_calls|].
  split; [apply upload_tool_calls|].
  split.
  - unfold main. simpl. apply cmd_sync_calls.
  - unfold main. destruct public, private_flag; simpl;
      apply cmd_create_and_sync_call.
Qed.

Example agent_sync_passes_cwd :
  calls (snd (sync_project_to_github ok_engine "octo/demo|dev" initial_world)) =
  [CallSyncProjectToRepo "octo" "demo" "." "dev"] /\
  calls (snd (create_repo_and_upload_project PyStr.lower_ascii ok_engine
                "demo|d|true|../elsewhere" initial_world)) =
  [CallCreateRepoAndSync "demo" "d" true "." (Some "../elsewhere")].
Proof. split; reflexivity. Qed.

Example cli_path_option :
  calls (snd (main ok_engine (LineSync "octo/demo" (Some "src") None)
                initial_world)) =
  [CallSyncProjectToRepo "octo" "demo" "src" "main"].
Proof. reflexivity. Qed.

(** ** The CLI command handlers *)

Example cli_list_ok :
  run_script ok_engine LineList =
  (Some 0, mkWorld [CallGetUserInfo; CallListRepositories]
        (banner ++
         [ newline +:+ "✓ Connected as: octo";
           "✓ Found 2 repositories:";
           "  • alpha - 🔒 Private";
           "    first";
           "  • beta - 🌍 Public";
           "" ])).
Proof. reflexivity. Qed.

Example cli_create_public :
  calls (snd (run_script ok_engine
                (LineCreateRepo "demo" None true None false))) =
  [CallCreateRepository "demo" "" false None].
Proof. reflexivity. Qed.

Lemma list_repos_prints (repos : list RepoInfo) (w : World) :
  exists out,
    for_each repos (fun repo =>
      let visibility := if private repo then "🔒 Private" else "🌍 Public" in
      print ("  • " +:+ name repo +:+ " - " +:+ visibility) ;;
      match description repo with
      | Some d => if PyStr.truthy d then print ("    " +:+ d) else ret tt
      | None => ret tt
      end) w = (Returns tt, mkWorld (calls w) (stdout w ++ out)).
Proof.
  eexists.
  apply (for_each_print_returns repos
           (fun repo =>
              ("  • " +:+ name repo +:+ " - "
               +:+ (if private repo then "🔒 Private" else "🌍 Public"))
              :: match description repo with
                 | Some d => if PyStr.truthy d then ["    " +:+ d] else []
                 | None => []
                 end)).
  intros repo w0. unfold bind, print, ret; simpl.
  destruct (description repo) as [d|]; [destruct (PyStr.truthy d)|]; simpl;
    rewrite <- ?app_assoc; reflexivity.
Qed.

(** A [try] block of a CLI handler that raises has printed nothing: the
    engine calls come before every [print]. *)
Lemma func_body_raises_silent (E : Engine) (ns : Namespace) (w w' : World)
    (e : exn) :
  func_body E ns w = (Raises e, w') -> stdout w' = stdout w.
Proof.
  destruct ns as [|args|args|args]; simpl.
  - unfold cmd_list_repos_body.
    unfold bind at 1. unfold get_user_info, invoke.
    destruct (get_user_info_resp E (calls w)) as [user|e1];
      [|intros [= <- <-]; reflexivity].
    unfold bind at 1. unfold list_repositories, invoke.
    destruct (list_repositories_resp E _) as [repos|e2];
      [|intros [= <- <-]; reflexivity].
    unfold bind at 1. unfold print at 1.
    unfold bind at 1. unfold print at 1.
    unfold bind at 1.
    match goal with
    | |- context [for_each repos ?body ?w0] =>
        destruct (list_repos_prints repos w0) as [out Hout]
    end.
    cbv zeta in Hout. rewrite Hout. unfold print. discriminate.
  - unfold cmd_create_repo_body, bind, create_repository, invoke, print.
    destruct (create_repository_resp E _ _ _ _ _) as [repo|e1];
      [discriminate|intros [= <- <-]; reflexivity].
  - unfold cmd_sync_project_body, bind.
    destruct (unpack2 (PyStr.split "/" (s_repository args)) w)
      as [[[owner repo]|e1] w1] eqn:Hun.
    + assert (w1 = w) as ->.
      { unfold unpack2, ret, raise in Hun.
        destruct (PyStr.split "/" (s_repository args)) as [|a [|b [|c l]]];
          congruence. }
      unfold sync_project_to_repo, invoke, print.
      destruct (sync_project_to_repo_resp E _ _ _ _ _) as [synced|e1];
        [discriminate|intros [= <- <-]; reflexivity].
    + intros [= <- <-].
      unfold unpack2, ret, raise in Hun.
      destruct (PyStr.split "/" (s_repository args)) as [|a [|b [|c l]]];
        congruence.
  - unfold cmd_create_and_sync_body, bind, create_repo_and_sync, invoke, print.
    destruct (create_repo_and_sync_resp E _ _ _ _ _ _) as [[r|]|e1];
      [discriminate|discriminate|intros [= <- <-]; reflexivity].
Qed.

Lemma run_func_github_error (E : Engine) (ns : Namespace) (w w' : World)
    (msg : string) (status : option nat) :
  func_body E ns w = (Raises (GitHubError msg status), w') ->
  run_func E ns w =
    (Returns tt,
     mkWorld (calls w')
       (stdout w ++ [cli_error_text (GitHubError msg status)])).
Proof.
  intros Hbody. pose proof (func_body_raises_silent _ _ _ _ _ Hbody) as Hout.
  destruct ns; simpl in *;
    unfold cmd_list_repos, cmd_create_repo, cmd_sync_project,
      cmd_create_and_sync, try_except;
    rewrite Hbody; simpl; unfold print; now rewrite Hout.
Qed.

Lemma script_after_banner (E : Engine) (line : CommandLine) :
  script E line initial_world = main E line (mkWorld [] banner).
Proof. reflexivity. Qed.

(** C3, as the code has it. When the [try] block of a CLI command handler
    (list, create-repo, sync, create-and-sync) raises a [GitHubError], the
    handler prints the single diagnosis "✗ Error: <message>" and returns;
    nothing else is printed by it, and the process completes with status
    0. *)
Theorem cli_github_error_reported (E : Engine) (line : CommandLine)
    (w w' : World) (msg : string) (status : option nat) :
  func_body E (fix_private (parse_args line)) w =
    (Raises (GitHubError msg status), w') ->
  main E line w =
    (Returns tt,
     mkWorld (calls w') (stdout w ++ ["✗ Error: " +:+ msg])) /\
  (w = mkWorld [] banner ->
   run_script E line =
     (Some 0, mkWorld (calls w') (banner ++ ["✗ Error: " +:+ msg]))).
Proof.
  intros Hbody. pose proof (run_func_github_error _ _ _ _ _ _ Hbody) as Hrun.
  split; [exact Hrun|].
  intros ->. unfold run_script. rewrite script_after_banner.
  unfold main in *. now rewrite Hrun.
Qed.

Lemma cli_github_error_reported_witness :
  main (failing_engine (GitHubError "Bad credentials" (Some 401)))
    (LineCreateRepo "demo" None false None false) (mkWorld [] banner) =
    (Returns tt,
     mkWorld (calls (mkWorld [CallCreateRepository "demo" "" true None] banner))
       (stdout (mkWorld [] banner) ++ ["✗ Error: " +:+ "Bad credentials"])) /\
  (mkWorld [] banner = mkWorld [] banner ->
   run_script (failing_engine (GitHubError "Bad credentials" (Some 401)))
     (LineCreateRepo "demo" None false None false) =
     (Some 0,
      mkWorld (calls (mkWorld [CallCreateRepository "demo" "" true None] banner))
        (banner ++ ["✗ Error: " +:+ "Bad credentials"]))).
Proof.
  apply (cli_github_error_reported
           (failing_engine (GitHubError "Bad credentials" (Some 401)))
           (LineCreateRepo "demo" None false None false)
           (mkWorld [] banner)
           (mkWorld [CallCreateRepository "demo" "" true None] banner)
           "Bad credentials" (Some 401)).
  reflexivity.
Defined.

(** C3 as stated fails: [create_repository] raises a [GitHubError], the
    handler prints its diagnosis, and the completion status is 0, not a
    non-zero one. *)
Lemma cli_github_error_status_zero :
  ~ (fst (func_body (failing_engine (GitHubError "Bad credentials" (Some 401)))
            (fix_private (parse_args (LineCreateRepo "demo" None false None false)))
            (mkWorld [] banner)) =
     Raises (GitHubError "Bad credentials" (Some 401)) ->
     fst (run_script (failing_engine (GitHubError "Bad credentials" (Some 401)))
            (LineCreateRepo "demo" None false None false)) <> Some 0).
Proof. intros H. now apply H. Qed.

(** An exception that is not a [GitHubError] leaves a CLI handler; only then
    is the completion status 1. *)
Example cli_other_exception_propagates :
  fst (run_script (failing_engine (OtherException "ConnectionError" "timed out"))
         LineList) = Some 1.
Proof. reflexivity. Qed.

(** ** The tree builder *)

Example demo_root :
  sync_tree_root demo_blob_hash demo_tree_hash demo_files =
  Ok "tree(a=tree(file3=blob:three,b=tree(c=tree(file1=blob:one),file2=blob:two)))".
Proof. vm_compute. reflexivity. Qed.

Example dotdot_rejected :
  sync_tree_root demo_blob_hash demo_tree_hash
    [ {| lf_path := "a/../b"; lf_bytes := "x"; lf_executable := false |} ] =
  Err PathError.
Proof. reflexivity. Qed.

Lemma existsb_permutation {A} (p : A -> bool) (l1 l2 : list A) :
  l1 ≡ₚ l2 -> existsb p l1 = existsb p l2.
Proof.
  induction 1 as [|x l l' _ IH|x y l|l l' l'' _ IH1 _ IH2]; simpl.
  - reflexivity.
  - now rewrite IH.
  - destruct (p x), (p y); reflexivity.
  - now rewrite IH1.
Qed.

(** The input set does not depend on the order in which the triples are
    listed, as long as no normalized path occurs twice. *)
Lemma input_set_permutation (t1 t2 : list (string * string * Mode)) :
  t1 ≡ₚ t2 ->
  NoDup (map (fun t => path_segments t.1.1) t1) ->
  input_set t1 = input_set t2.
Proof.
  intros Hperm Hnodup. unfold input_set.
  apply list_to_map_proper.
  - rewrite <- list_fmap_compose. exact Hnodup.
  - now apply fmap_Permutation.
Qed.

Lemma build_tree_permutation (tree_hash : list (string * (Mode * string)) -> string)
    (t1 t2 : list (string * string * Mode)) :
  t1 ≡ₚ t2 ->
  NoDup (map (fun t => path_segments t.1.1) t1) ->
  build_tree tree_hash t1 = build_tree tree_hash t2.
Proof.
  intros Hperm Hnodup. unfold build_tree.
  rewrite (existsb_permutation _ _ _ Hperm).
  now rewrite (input_set_permutation _ _ Hperm Hnodup).
Qed.

(** C1. Two runs over the same file set, that is the same files (path,
    bytes, executable flag) collected in any order, each path once, compute
    the same root tree address: the root is a function of the set of
    (path, address, mode) triples. *)
Theorem tree_root_deterministic (blob_hash : string -> string)
    (tree_hash : list (string * (Mode * string)) -> string)
    (run1 run2 : list LocalFile) :
  run1 ≡ₚ run2 ->
  NoDup (map (fun f => path_segments (lf_path f)) run1) ->
  sync_tree_root blob_hash tree_hash run1 =
  sync_tree_root blob_hash tree_hash run2.
Proof.
  intros Hperm Hnodup. unfold sync_tree_root.
  apply build_tree_permutation.
  - now apply fmap_Permutation.
  - rewrite map_map. exact Hnodup.
Qed.

Lemma tree_root_deterministic_witness :
  sync_tree_root demo_blob_hash demo_tree_hash demo_files =
  sync_tree_root demo_blob_hash demo_tree_hash (rev demo_files).
Proof.
  apply (tree_root_deterministic demo_blob_hash demo_tree_hash demo_files
           (rev demo_files)).
  - apply Permutation_rev.
  - apply (bool_decide_unpack _). vm_compute. exact I.
Defined.

(** The same bytes at a different path give another root with the example
    hashes: the paths are part of what the root depends on. *)
Example moved_file_changes_root :
  sync_tree_root demo_blob_hash demo_tree_hash
    [ {| lf_path := "x/f"; lf_bytes := "one"; lf_executable := false |} ] <>
  sync_tree_root demo_blob_hash demo_tree_hash
    [ {| lf_path := "y/f"; lf_bytes := "one"; lf_executable := false |} ].
Proof. vm_compute. discriminate. Qed.

(** ** The commit composer *)

Example new_branch_commit :
  sync_commit demo_commit_hash no_faults no_faults "main" "T1" "sync" empty_remote =
  (Ok ("commit(T1;)", Created),
   mkRemote {[ "main" := "commit(T1;)" ]}
     {[ "commit(T1;)" := {| commit_tree := "T1"; commit_parents := [];
                            commit_message := "sync" |} ]},
   [ empty_remote;
     mkRemote ∅
       {[ "commit(T1;)" := {| commit_tree := "T1"; commit_parents := [];
                              commit_message := "sync" |} ]};
     mkRemote {[ "main" := "commit(T1;)" ]}
       {[ "commit(T1;)" := {| commit_tree := "T1"; commit_parents := [];
                              commit_message := "sync" |} ]} ]).
Proof. vm_compute. reflexivity. Qed.

Example existing_branch_commit :
  let '(res, r', _) :=
    sync_commit demo_commit_hash no_faults no_faults "main" "T2" "sync"
      (remote_at "main" "c0") in
  res = Ok ("commit(T2;c0)", Updated) /\
  refs r' !! "main" = Some "commit(T2;c0)".
Proof. vm_compute. split; reflexivity. Qed.

Example stale_head_retried_once :
  let '(res, r', _) :=
    sync_commit demo_commit_hash (saw_head (Some "old")) no_faults "main" "T2"
      "sync" (remote_at "main" "c0") in
  res = Ok ("commit(T2;c0)", Updated) /\
  refs r' !! "main" = Some "commit(T2;c0)".
Proof. vm_compute. split; reflexivity. Qed.

Example stale_head_twice_fails :
  let '(res, r', _) :=
    sync_commit demo_commit_hash (saw_head (Some "old")) (saw_head None) "main"
      "T2" "sync" (remote_at "main" "c0") in
  res = Err ConcurrentModificationError /\
  refs r' = refs (remote_at "main" "c0").
Proof. vm_compute. split; reflexivity. Qed.





(** A failed write of the ref leaves the branch where it was. *)
Example ref_fault_leaves_ref :
  let '(res, r', _) :=
    sync_commit demo_commit_hash (ref_write_fails NetworkError) no_faults
      "main" "T2" "sync" (remote_at "main" "c0") in
  res = Err NetworkError /\ refs r' !! "main" = Some "c0".
Proof. vm_compute. split; reflexivity. Qed.

(** * Further properties of main.py *)

(** ** The command line *)

Lemma cmd_create_repo_call (E : Engine) (args : CreateArgs) (w : World) :
  calls (snd (cmd_create_repo E args w)) =
    calls w ++ [CallCreateRepository (a_name args) (a_description args)
                  (a_private args) (a_org args)].
Proof.
  unfold cmd_create_repo, try_except, cmd_create_repo_body, bind,
    create_repository, invoke.
  destruct (create_repository_resp E _ _ _ _ _) as [repo|e]; [reflexivity|].
  destruct e; reflexivity.
Qed.

(** On the command line a repository is created private unless [--public]
    is given; the [--private] flag changes nothing. This holds for
    [create-repo] and for [create-and-sync], which each make exactly one
    engine call; a missing description is the empty string and a missing
    path is ".". *)
Theorem cli_private_unless_public (E : Engine) (nm : string)
    (descr org path : option string) (public private_flag : bool) (w : World) :
  calls (snd (main E (LineCreateRepo nm descr public org private_flag) w)) =
    calls w ++ [CallCreateRepository nm (or_default descr "") (negb public) org] /\
  calls (snd (main E (LineCreateAndSync nm descr public org path private_flag) w)) =
    calls w ++ [CallCreateRepoAndSync nm (or_default descr "") (negb public)
                  (or_default path ".") org].
Proof.
  unfold main. split.
  - destruct public, private_flag; simpl; apply cmd_create_repo_call.
  - destruct public, private_flag; simpl; apply cmd_create_and_sync_call.
Qed.

(** ** Exceptions the handlers do not catch *)



(** The [except ValueError] clause of [cmd_sync_project] also catches a
    [ValueError] raised by the engine: for a well-formed [owner/repo] the
    engine is called, and its [ValueError] is reported as the repository
    format error. *)
Theorem cli_sync_engine_value_error (E : Engine) (args : SyncArgs)
    (owner repo msg : string) (w : World) :
  PyStr.split "/" (s_repository args) = [owner; repo] ->
  sync_project_to_repo_resp E (calls w) owner repo (s_path args) (s_branch args) =
    Raises (ValueError msg) ->
  cmd_sync_project E args w =
    (Returns tt,
     mkWorld (calls w ++ [CallSyncProjectToRepo owner repo (s_path args)
                            (s_branch args)])
       (stdout w ++ [cli_repository_format_error])).
Proof.
  intros Hrepo Hresp.
  unfold cmd_sync_project, try_except, cmd_sync_project_body, bind.
  rewrite Hrepo. simpl unpack2. unfold ret at 1.
  unfold sync_project_to_repo, invoke. rewrite Hresp. reflexivity.
Qed.

Lemma cli_sync_engine_value_error_witness :
  cmd_sync_project (failing_engine (ValueError "bad branch name"))
    {| s_repository := "octo/demo"; s_path := "."; s_branch := "main" |}
    initial_world =
  (Returns tt,
   mkWorld (calls initial_world ++ [CallSyncProjectToRepo "octo" "demo" "." "main"])
     (stdout initial_world ++ [cli_repository_format_error])).
Proof.
  apply (cli_sync_engine_value_error
           (failing_engine (ValueError "bad branch name"))
           {| s_repository := "octo/demo"; s_path := "."; s_branch := "main" |}
           "octo" "demo" "bad branch name" initial_world);
    reflexivity.
Defined.

(** An exception that does not derive from [Exception] (a
    [KeyboardInterrupt] during a remote call) is not caught by an agent
    tool: it leaves the tool as it was raised. *)
Theorem tool_lets_interrupt_through (lower : string -> string)
    (E : Engine) (t : Tool) (input : string)
    (w w' : World) (e : exn) :
  tool_body lower E t input w = (Raises e, w') ->
  is_Exception e = false ->
  run_tool lower E t input w = (Raises e, w').
Proof.
  intros Hbody He. rewrite run_tool_try. unfold try_except. rewrite Hbody.
  destruct e; simpl in He; try discriminate. reflexivity.
Qed.

Lemma tool_lets_interrupt_through_witness :
  run_tool PyStr.lower_ascii (failing_engine (NonException "KeyboardInterrupt" ""))
    SyncProjectToGithub "octo/demo" initial_world =
  (Raises (NonException "KeyboardInterrupt" ""),
   mkWorld [CallSyncProjectToRepo "octo" "demo" "." "main"] []).
Proof.
  apply (tool_lets_interrupt_through PyStr.lower_ascii (failing_engine (NonException "KeyboardInterrupt" ""))
           SyncProjectToGithub "octo/demo" initial_world
           (mkWorld [CallSyncProjectToRepo "octo" "demo" "." "main"] [])
           (NonException "KeyboardInterrupt" ""));
    reflexivity.
Defined.

(** ** What the agent tools do to the world *)

Lemma quiet_ret {A} (n : nat) (a : A) : quiet_within n (ret a).
Proof.
  intros w. exists []. rewrite app_nil_r. split; [now destruct w|simpl; lia].
Qed.

Lemma quiet_raise {A} (n : nat) (e : exn) : quiet_within n (@raise A e).
Proof.
  intros w. exists []. rewrite app_nil_r. split; [now destruct w|simpl; lia].
Qed.

Lemma quiet_invoke {A} (n : nat) (c : Call) (resp : list Call -> outcome A) :
  1 <= n -> quiet_within n (invoke c resp).
Proof. intros Hn w. exists [c]. split; [reflexivity|simpl; lia]. Qed.

Lemma quiet_index (n : nat) (l : list string) (i : nat) :
  quiet_within n (index l i).
Proof.
  unfold index. destruct (nth_error l i); [apply quiet_ret|apply quiet_raise].
Qed.

Lemma quiet_unpack2 (n : nat) (l : list string) : quiet_within n (unpack2 l).
Proof.
  unfold unpack2. destruct l as [|a [|b [|c l]]];
    first [apply quiet_ret | apply quiet_raise].
Qed.

Lemma quiet_bind {A B} (n m p : nat) (c : M A) (k : A -> M B) :
  quiet_within n c -> (forall a, quiet_within m (k a)) -> n + m <= p ->
  quiet_within p (bind c k).
Proof.
  intros Hc Hk Hp w. unfold bind.
  destruct (Hc w) as (new1 & Hw1 & Hn).
  destruct (c w) as [[a|e] w1]; simpl in Hw1; subst w1.
  - destruct (Hk a (mkWorld (calls w ++ new1) (stdout w))) as (new2 & Hw2 & Hm).
    exists (new1 ++ new2). simpl in Hw2. rewrite Hw2, app_assoc, length_app.
    split; [reflexivity|lia].
  - exists new1. split; [reflexivity|lia].
Qed.

Lemma quiet_tool (n : nat) (body : M string) :
  quiet_within n body -> quiet_within n (try_except body tool_clauses).
Proof.
  intros Hbody w. unfold try_except.
  destruct (Hbody w) as (new & Hw & Hn).
  destruct (body w) as [[a|e] w1]; simpl in Hw; subst w1.
  - now exists new.
  - exists new. split; [|exact Hn]. destruct e; reflexivity.
Qed.

Lemma quiet_parse_repo_fields (lower : string -> string) (parts : list string) :
  quiet_within 0 (parse_repo_fields lower parts).
Proof.
  unfold parse_repo_fields.
  repeat first
    [ apply quiet_ret
    | apply quiet_index
    | apply (quiet_bind 0 0 0); [ | intros ? | lia ]
    | match goal with
      | |- quiet_within _ (if ?b then _ else _) => destruct b
      end ].
Qed.

Lemma quiet_tool_body (lower : string -> string)
    (E : Engine) (t : Tool) (input : string) :
  quiet_within (match t with ListMyGithubRepos => 2 | _ => 1 end)
    (tool_body lower E t input).
Proof.
  destruct t; simpl.
  - unfold list_my_github_repos_body.
    apply (quiet_bind 1 1 2); [apply quiet_invoke; lia| |lia].
    intros user.
    apply (quiet_bind 1 0 1); [apply quiet_invoke; lia| |lia].
    intros repos. destruct (map name repos); apply quiet_ret.
  - unfold create_github_repo_body.
    destruct (length (PyStr.split "|" input) <? 3); [apply quiet_ret|].
    apply (quiet_bind 0 1 1); [apply quiet_parse_repo_fields| |lia].
    intros [[[nm descr] priv] org].
    apply (quiet_bind 1 0 1); [apply quiet_invoke; lia| |lia].
    intros repo. apply quiet_ret.
  - unfold sync_project_to_github_body.
    destruct (length (PyStr.split "|" input) <? 1); [apply quiet_ret|].
    apply (quiet_bind 0 1 1); [apply quiet_index| |lia].
    intros p0.
    destruct (negb (length (PyStr.split "/" (PyStr.strip p0)) =? 2));
      [apply quiet_ret|].
    apply (quiet_bind 0 1 1); [apply quiet_unpack2| |lia].
    intros [owner repo].
    apply (quiet_bind 0 1 1); [| |lia].
    + repeat first
        [ apply quiet_ret
        | apply quiet_index
        | apply (quiet_bind 0 0 0); [ | intros ? | lia ]
        | match goal with
          | |- quiet_within _ (if ?b then _ else _) => destruct b
          end ].
    + intros branch.
      apply (quiet_bind 1 0 1); [apply quiet_invoke; lia| |lia].
      intros synced. apply quiet_ret.
  - unfold create_repo_and_upload_project_body.
    destruct (length (PyStr.split "|" input) <? 3); [apply quiet_ret|].
    apply (quiet_bind 0 1 1); [apply quiet_parse_repo_fields| |lia].
    intros [[[nm descr] priv] org].
    apply (quiet_bind 1 0 1); [apply quiet_invoke; lia| |lia].
    intros [r|]; apply quiet_ret.
Qed.

(** An agent tool never prints, and it makes at most one engine call
    ([list_my_github_repos]: at most two), whatever the input and whatever
    the engine answers; the calls are appended to the log. *)
Theorem tools_are_quiet (lower : string -> string)
    (E : Engine) (t : Tool) (input : string) (w : World) :
  exists new,
    snd (run_tool lower E t input w) = mkWorld (calls w ++ new) (stdout w) /\
    length new <= match t with ListMyGithubRepos => 2 | _ => 1 end.
Proof.
  rewrite run_tool_try.
  apply (quiet_tool _ _ (quiet_tool_body lower E t input)).
Qed.

(** ** Results of the agent tools *)

(** The test [len(parts) < 1] of [sync_project_to_github] can never hold:
    the tool never returns the "Invalid format" text, whatever the input and
    whatever the engine answers. *)
Theorem sync_tool_never_invalid_format (E : Engine) (repo_info : string)
    (w : World) :
  fst (sync_project_to_github E repo_info w) <> Returns sync_format_error.
Proof.
  destruct (Nat.eq_dec (length (PyStr.split "/" (first_field repo_info))) 2)
    as [Htwo|Hnot].
  - rewrite <- split_slash_strip in Htwo. unfold first_field in Htwo.
    unfold sync_project_to_github, try_except, sync_project_to_github_body.
    destruct (PyStr.split "|" repo_info) as [|p0 rest] eqn:Hparts;
      [now apply split_nonempty in Hparts|].
    simpl in Htwo. change (length (p0 :: rest) <? 1) with false. cbv iota.
    unfold bind at 1. rewrite (index_some _ 0 p0) by reflexivity.
    destruct (PyStr.split "/" (PyStr.strip p0)) as [|owner [|repo [|x l]]];
      simpl in Htwo; try lia.
    change (negb (length [owner; repo] =? 2)) with false.
    cbv iota. unfold bind at 1.
    change (unpack2 [owner; repo] w) with (Returns (owner, repo), w).
    cbv iota beta. unfold bind at 1.
    match goal with
    | |- context [let (o, w') := ?c w in _] => destruct (c w) as [[branch|e] w1]
    end.
    + unfold bind, sync_project_to_repo, invoke, ret.
      destruct (sync_project_to_repo_resp E _ _ _ _ _) as [synced|e];
        [simpl; discriminate|].
      destruct e; simpl; discriminate.
    + destruct e; simpl; discriminate.
  - rewrite (sync_tool_rejects E repo_info w Hnot). simpl. discriminate.
Qed.

(** When [get_user_info] raises, [list_my_github_repos] stops there:
    [list_repositories] is not called, and the tool returns the diagnosis of
    that exception. *)
Theorem list_tool_stops_at_user_info (E : Engine) (query : string) (w : World)
    (e : exn) :
  get_user_info_resp E (calls w) = Raises e ->
  is_Exception e = true ->
  list_my_github_repos E query w =
    (Returns (tool_diagnosis e), mkWorld (calls w ++ [CallGetUserInfo]) (stdout w)).
Proof.
  intros Hresp He.
  unfold list_my_github_repos, try_except, list_my_github_repos_body.
  unfold bind at 1. unfold get_user_info, invoke. rewrite Hresp.
  now apply tool_clauses_catch.
Qed.

Lemma list_tool_stops_at_user_info_witness :
  list_my_github_repos (failing_engine (GitHubError "Bad credentials" (Some 401)))
    "list them" initial_world =
  (Returns (tool_diagnosis (GitHubError "Bad credentials" (Some 401))),
   mkWorld (calls initial_world ++ [CallGetUserInfo]) (stdout initial_world)).
Proof.
  apply (list_tool_stops_at_user_info
           (failing_engine (GitHubError "Bad credentials" (Some 401)))
           "list them" initial_world (GitHubError "Bad credentials" (Some 401)));
    reflexivity.
Defined.

(** With an account that has no repository, [list_my_github_repos] returns
    the "found 0 repositories" text instead of the SUCCESS text with an
    empty list of names. *)
Theorem list_tool_no_repositories (E : Engine) (query : string) (w : World)
    (user : UserInfo) :
  get_user_info_resp E (calls w) = Returns user ->
  list_repositories_resp E (calls w ++ [CallGetUserInfo]) = Returns [] ->
  fst (list_my_github_repos E query w) =
    Returns ("Connected as '" +:+ login user +:+ "' but found 0 repositories.").
Proof.
  intros Huser Hrepos.
  unfold list_my_github_repos, try_except, list_my_github_repos_body.
  unfold bind at 1. unfold get_user_info, invoke. rewrite Huser.
  unfold bind at 1. unfold list_repositories, invoke. simpl calls.
  rewrite Hrepos. reflexivity.
Qed.

Lemma list_tool_no_repositories_witness :
  fst (list_my_github_repos empty_account "" initial_world) =
    Returns ("Connected as '" +:+ login {| login := "octo" |}
             +:+ "' but found 0 repositories.").
Proof.
  apply (list_tool_no_repositories empty_account "" initial_world
           {| login := "octo" |}); reflexivity.
Defined.

(** In the create tools the organisation is optional: with at least three
    fields, the engine is asked for no organisation exactly when the fourth
    field is missing or blank; otherwise it is asked for the fourth field,
    stripped. Fields after the fourth are not read. *)
Theorem create_tools_org (lower : string -> string)
    (E : Engine) (repo_info : string) (w : World) :
  3 <= length (PyStr.split "|" repo_info) ->
  exists (nm descr : string) (priv : bool) (org : option string),
    calls (snd (create_github_repo lower E repo_info w)) =
      calls w ++ [CallCreateRepository nm descr priv org] /\
    calls (snd (create_repo_and_upload_project lower E repo_info w)) =
      calls w ++ [CallCreateRepoAndSync nm descr priv "." org] /\
    (org = None <-> org_blank repo_info) /\
    (forall o, nth_error (PyStr.split "|" repo_info) 3 = Some o ->
               PyStr.strip o <> "" -> org = Some (PyStr.strip o)).
Proof.
  intros Hlen. destruct (three_fields _ Hlen) as (p0 & p1 & p2 & rest & Hparts).
  exists (PyStr.strip p0), (PyStr.strip p1),
    (String.eqb (lower (PyStr.strip p2)) "true"), (org_field rest).
  split; [now apply create_github_repo_call|].
  split; [now apply create_repo_and_upload_project_call|].
  unfold org_blank. rewrite Hparts. simpl.
  destruct rest as [|p3 rest']; simpl.
  - split; [tauto|]. intros o [=].
  - destruct (PyStr.strip p3) as [|c s] eqn:Hstrip; simpl.
    + split; [tauto|]. intros o [= <-]. now rewrite Hstrip.
    + split.
      * split; [discriminate|discriminate].
      * intros o [= <-] _. now rewrite Hstrip.
Qed.

Lemma create_tools_org_witness :
  exists (nm descr : string) (priv : bool) (org : option string),
    calls (snd (create_github_repo PyStr.lower_ascii ok_engine "demo|d|true| acme |x" initial_world)) =
      calls initial_world ++ [CallCreateRepository nm descr priv org] /\
    calls (snd (create_repo_and_upload_project PyStr.lower_ascii ok_engine "demo|d|true| acme |x"
                  initial_world)) =
      calls initial_world ++ [CallCreateRepoAndSync nm descr priv "." org] /\
    (org = None <-> org_blank "demo|d|true| acme |x") /\
    (forall o, nth_error (PyStr.split "|" "demo|d|true| acme |x") 3 = Some o ->
               PyStr.strip o <> "" -> org = Some (PyStr.strip o)).
Proof.
  apply (create_tools_org PyStr.lower_ascii ok_engine "demo|d|true| acme |x" initial_world).
  vm_compute. lia.
Defined.

Example create_with_org :
  calls (snd (create_github_repo PyStr.lower_ascii ok_engine "demo|d|true| acme |x" initial_world)) =
  [CallCreateRepository "demo" "d" true (Some "acme")].
Proof. reflexivity. Qed.

(** A branch field that is not blank selects the branch: the sync tool
    passes it stripped. *)
Theorem sync_tool_uses_branch_field (E : Engine) (repo_info p0 p1 owner repo : string)
    (rest : list string) (w : World) :
  PyStr.split "|" repo_info = p0 :: p1 :: rest ->
  PyStr.split "/" (PyStr.strip p0) = [owner; repo] ->
  PyStr.strip p1 <> "" ->
  calls (snd (sync_project_to_github E repo_info w)) =
    calls w ++ [CallSyncProjectToRepo owner repo "." (PyStr.strip p1)].
Proof.
  intros Hparts Hrepo Hbranch.
  rewrite (sync_tool_call E repo_info p0 owner repo (p1 :: rest) w Hparts Hrepo).
  simpl. destruct (PyStr.strip p1); [congruence|reflexivity].
Qed.

Lemma sync_tool_uses_branch_field_witness :
  calls (snd (sync_project_to_github ok_engine "octo/demo| release |x" initial_world)) =
    calls initial_world ++
    [CallSyncProjectToRepo "octo" "demo" "." (PyStr.strip " release ")].
Proof.
  apply (sync_tool_uses_branch_field ok_engine "octo/demo| release |x"
           "octo/demo" " release " "octo" "demo" ["x"] initial_world).
  - reflexivity.
  - reflexivity.
  - vm_compute. discriminate.
Defined.

(** When the engine creates nothing (a falsy result),
    [create_repo_and_upload_project] returns the plain failure text, after
    its one engine call. *)
Theorem upload_tool_falsy_result (lower : string -> string)
    (E : Engine) (repo_info p0 p1 p2 : string)
    (rest : list string) (w : World) :
  PyStr.split "|" repo_info = p0 :: p1 :: p2 :: rest ->
  create_repo_and_sync_resp E (calls w) (PyStr.strip p0) (PyStr.strip p1)
    (String.eqb (lower (PyStr.strip p2)) "true") "." (org_field rest) =
    Returns None ->
  fst (create_repo_and_upload_project lower E repo_info w) =
    Returns "Failed to create repository and sync files".
Proof.
  intros Hparts Hresp.
  unfold create_repo_and_upload_project, try_except,
    create_repo_and_upload_project_body.
  rewrite Hparts, three_fields_pass.
  unfold bind at 1. rewrite parse_repo_fields_ok.
  unfold bind, create_repo_and_sync, invoke, ret. rewrite Hresp. reflexivity.
Qed.

Lemma upload_tool_falsy_result_witness :
  fst (create_repo_and_upload_project PyStr.lower_ascii empty_account "demo|d|true" initial_world) =
    Returns "Failed to create repository and sync files".
Proof.
  apply (upload_tool_falsy_result PyStr.lower_ascii empty_account "demo|d|true" "demo" "d" "true"
           [] initial_world); reflexivity.
Defined.

(** ** What the CLI prints *)

Lemma list_repos_prints_lines (repos : list RepoInfo) (w : World) :
  for_each repos (fun repo =>
    let visibility := if private repo then "🔒 Private" else "🌍 Public" in
    print ("  • " +:+ name repo +:+ " - " +:+ visibility) ;;
    match description repo with
    | Some d => if PyStr.truthy d then print ("    " +:+ d) else ret tt
    | None => ret tt
    end) w =
  (Returns tt, mkWorld (calls w) (stdout w ++ concat (map repo_lines repos))).
Proof.
  apply (for_each_print_returns repos repo_lines).
  intros repo w0. unfold repo_lines, bind, print, ret; simpl.
  destruct (description repo) as [d|]; [destruct (PyStr.truthy d)|]; simpl;
    rewrite <- ?app_assoc; reflexivity.
Qed.

(** When both engine calls answer, [cmd_list_repos] prints the user, the
    number of repositories, then for each repository in order its line and,
    only when it has a non-empty description, a description line, and last
    an empty line. *)
Theorem cmd_list_repos_output (E : Engine) (w : World) (user : UserInfo)
    (repos : list RepoInfo) :
  get_user_info_resp E (calls w) = Returns user ->
  list_repositories_resp E (calls w ++ [CallGetUserInfo]) = Returns repos ->
  cmd_list_repos E w =
    (Returns tt,
     mkWorld (calls w ++ [CallGetUserInfo; CallListRepositories])
       (stdout w
        ++ [ newline +:+ "✓ Connected as: " +:+ login user;
             "✓ Found " +:+ PyStr.str_of_nat (length repos) +:+ " repositories:" ]
        ++ concat (map repo_lines repos) ++ [""])).
Proof.
  intros Huser Hrepos.
  unfold cmd_list_repos, try_except, cmd_list_repos_body.
  unfold bind at 1. unfold get_user_info, invoke. rewrite Huser.
  unfold bind at 1. unfold list_repositories, invoke. simpl calls.
  rewrite Hrepos.
  unfold bind at 1. unfold print at 1.
  unfold bind at 1. unfold print at 1.
  unfold bind at 1.
  match goal with
  | |- context [for_each repos ?body ?w0] =>
      pose proof (list_repos_prints_lines repos w0) as Hloop
  end.
  cbv zeta in Hloop. rewrite Hloop. unfold print. simpl.
  rewrite <- !app_assoc. reflexivity.
Qed.

Lemma cmd_list_repos_output_witness :
  cmd_list_repos ok_engine initial_world =
    (Returns tt,
     mkWorld (calls initial_world ++ [CallGetUserInfo; CallListRepositories])
       (stdout initial_world
        ++ [ newline +:+ "✓ Connected as: " +:+ login {| login := "octo" |};
             "✓ Found "
             +:+ PyStr.str_of_nat
                   (length [ {| name := "alpha"; private := true;
                                description := Some "first" |};
                             {| name := "beta"; private := false;
                                description := None |} ])
             +:+ " repositories:" ]
        ++ concat (map repo_lines
                     [ {| name := "alpha"; private := true;
                          description := Some "first" |};
                       {| name := "beta"; private := false;
                          description := None |} ])
        ++ [""])).
Proof.
  apply (cmd_list_repos_output ok_engine initial_world {| login := "octo" |}
           [ {| name := "alpha"; private := true; description := Some "first" |};
             {| name := "beta"; private := false; description := None |} ]);
    reflexivity.
Defined.

(** The handlers of [create-repo], [sync] and [create-and-sync] print
    exactly one text whenever they return: the success line, the failure
    line, or the diagnosis. *)
Theorem cli_handler_prints_once (E : Engine) (ns : Namespace) (w w' : World) :
  ns <> NsList ->
  run_func E ns w = (Returns tt, w') ->
  exists text, stdout w' = stdout w ++ [text].
Proof.
  intros Hns. destruct ns as [|args|args|args]; [congruence| | |]; simpl.
  - unfold cmd_create_repo, try_except, cmd_create_repo_body, bind,
      create_repository, invoke, print.
    destruct (create_repository_resp E _ _ _ _ _) as [repo|e].
    + intros [= <-]. eexists; reflexivity.
    + destruct e; simpl; intros [= <-]. eexists; reflexivity.
  - unfold cmd_sync_project, try_except, cmd_sync_project_body, bind.
    destruct (PyStr.split "/" (s_repository args)) as [|a [|b [|c l]]];
      simpl; try (intros [= <-]; eexists; reflexivity).
    unfold sync_project_to_repo, invoke, print.
    destruct (sync_project_to_repo_resp E _ _ _ _ _) as [synced|e].
    + intros [= <-]. eexists; reflexivity.
    + destruct e; simpl; intros [= <-]; eexists; reflexivity.
  - unfold cmd_create_and_sync, try_except, cmd_create_and_sync_body, bind,
      create_repo_and_sync, invoke, print.
    destruct (create_repo_and_sync_resp E _ _ _ _ _ _) as [[r|]|e].
    + intros [= <-]. eexists; reflexivity.
    + intros [= <-]. eexists; reflexivity.
    + destruct e; simpl; intros [= <-]. eexists; reflexivity.
Qed.

Lemma cli_handler_prints_once_witness :
  exists text,
    stdout (mkWorld [CallSyncProjectToRepo "octo" "demo" "." "main"]
              ["✓ Synced 2 files to octo/demo"]) =
    stdout initial_world ++ [text].
Proof.
  apply (cli_handler_prints_once ok_engine
           (NsSync {| s_repository := "octo/demo"; s_path := ".";
                      s_branch := "main" |})
           initial_world
           (mkWorld [CallSyncProjectToRepo "octo" "demo" "." "main"]
              ["✓ Synced 2 files to octo/demo"])).
  - discriminate.
  - reflexivity.
Defined.

(** ** The world only grows *)

Lemma extends_ret {A} (a : A) : extends (ret a).
Proof. intros w. exists [], []. rewrite !app_nil_r. now destruct w. Qed.

Lemma extends_raise {A} (e : exn) : extends (@raise A e).
Proof. intros w. exists [], []. rewrite !app_nil_r. now destruct w. Qed.

Lemma extends_print (text : string) : extends (print text).
Proof. intros w. exists [], [text]. now rewrite app_nil_r. Qed.

Lemma extends_invoke {A} (c : Call) (resp : list Call -> outcome A) :
  extends (invoke c resp).
Proof. intros w. exists [c], []. now rewrite app_nil_r. Qed.

Lemma extends_unpack2 (l : list string) : extends (unpack2 l).
Proof.
  unfold unpack2. destruct l as [|a [|b [|c l]]];
    first [apply extends_ret | apply extends_raise].
Qed.

Lemma extends_bind {A B} (c : M A) (k : A -> M B) :
  extends c -> (forall a, extends (k a)) -> extends (bind c k).
Proof.
  intros Hc Hk w. unfold bind.
  destruct (Hc w) as (new1 & out1 & Hw1).
  destruct (c w) as [[a|e] w1]; simpl in Hw1; subst w1.
  - destruct (Hk a (mkWorld (calls w ++ new1) (stdout w ++ out1)))
      as (new2 & out2 & Hw2).
    exists (new1 ++ new2), (out1 ++ out2). simpl in Hw2.
    now rewrite Hw2, !app_assoc.
  - now exists new1, out1.
Qed.

Lemma extends_for_each {A} (l : list A) (body : A -> M unit) :
  (forall x, extends (body x)) -> extends (for_each l body).
Proof.
  intros Hbody. induction l as [|x l IH]; simpl.
  - apply extends_ret.
  - apply extends_bind; [apply Hbody|intros _; exact IH].
Qed.

Lemma extends_try {A} (body : M A)
    (clauses : list ((exn -> bool) * (exn -> M A))) :
  extends body ->
  Forall (fun clause => forall e, extends (snd clause e)) clauses ->
  extends (try_except body clauses).
Proof.
  intros Hbody Hclauses w. unfold try_except.
  destruct (Hbody w) as (new1 & out1 & Hw1).
  destruct (body w) as [[a|e] w1]; simpl in Hw1; subst w1.
  - now exists new1, out1.
  - assert (Hd : extends (dispatch clauses e)).
    { induction Hclauses as [|[accepts handler] rest Hh _ IH]; simpl.
      - apply extends_raise.
      - destruct (accepts e); [apply Hh|apply IH]. }
    destruct (Hd (mkWorld (calls w ++ new1) (stdout w ++ out1)))
      as (new2 & out2 & Hw2).
    exists (new1 ++ new2), (out1 ++ out2). simpl in Hw2.
    now rewrite Hw2, !app_assoc.
Qed.

Ltac extends_tac :=
  repeat first
    [ apply extends_ret | apply extends_raise | apply extends_print
    | apply extends_invoke | apply extends_unpack2
    | apply extends_for_each; intros ?
    | apply extends_bind; [ | intros ? ]
    | match goal with
      | |- extends (if ?b then _ else _) => destruct b
      | |- extends (match ?x with _ => _ end) => destruct x
      | |- extends (let 'pair _ _ := ?x in _) => destruct x
      end ].

Lemma extends_run_func (E : Engine) (ns : Namespace) : extends (run_func E ns).
Proof.
  destruct ns as [|args|args|args]; simpl;
    unfold cmd_list_repos, cmd_create_repo, cmd_sync_project,
      cmd_create_and_sync;
    (apply extends_try;
     [ unfold cmd_list_repos_body, cmd_create_repo_body, cmd_sync_project_body,
         cmd_create_and_sync_body, get_user_info, list_repositories,
         create_repository, sync_project_to_repo, create_repo_and_sync;
       extends_tac
     | repeat constructor; intros e; simpl; extends_tac ]).
Qed.

(** Whatever the command and whatever the engine does, the output of the
    program starts with the three banner lines, and the handlers only add
    to the call log and to the output. *)
Theorem script_output_starts_with_banner (E : Engine) (line : CommandLine) :
  exists new out,
    snd (run_script E line) = mkWorld new (banner ++ out).
Proof.
  unfold run_script. rewrite script_after_banner. unfold main.
  destruct (extends_run_func E (fix_private (parse_args line))
              (mkWorld [] banner)) as (new & out & Hw).
  exists new, out.
  destruct (run_func E (fix_private (parse_args line)) (mkWorld [] banner))
    as [o w']. simpl in *. exact Hw.
Qed.

(** ** The web perception tools *)

Example liveness_tool_ok :
  test_website_liveness_tool demo_web "example.com" =
  (Returns ("Website: https://example.com" +:+ newline
            +:+ "Status: ✓ ACCESSIBLE" +:+ newline
            +:+ "Title: Example Domain" +:+ newline
            +:+ "Load Time: 0.42s" +:+ newline
            +:+ "Page Size: 1256 characters" +:+ newline
            +:+ newline +:+ "⚠️ WARNINGS (1):" +:+ newline
            +:+ "  • slow" +:+ newline),
   [CallTestWebsiteLiveness "https://example.com" true 30]).
Proof. reflexivity. Qed.

Example extract_tool_links :
  extract_page_content_tool PyStr.lower_ascii demo_web " http://news.com | LINKS " =
  (Returns ("Content extracted from: http://news.com" +:+ newline
            +:+ "Type: links" +:+ newline +:+ newline
            +:+ "Found 1 links (showing first 1):" +:+ newline
            +:+ "• More → /more" +:+ newline),
   [CallExtractPageContent "http://news.com" "links" 30]).
Proof. reflexivity. Qed.

Example extract_tool_failure :
  fst (extract_page_content_tool PyStr.lower_ascii demo_web "news.com|images") =
  Returns "Failed to extract content from https://news.com: no images".
Proof. reflexivity. Qed.

Example extract_tool_web_error :
  fst (extract_page_content_tool PyStr.lower_ascii demo_web "news.com|forms") =
  Returns "Web Perception Error: browser crashed".
Proof. reflexivity. Qed.

Lemma has_scheme_with_scheme (url : string) :
  has_scheme (with_scheme url) = true.
Proof.
  unfold with_scheme. destruct (has_scheme url) eqn:H; [exact H|].
  destruct url; reflexivity.
Qed.

(** A URL that names its scheme is passed on as it is; any other gets
    "https://" in front, once. *)
Lemma with_scheme_idempotent (url : string) :
  with_scheme (with_scheme url) = with_scheme url.
Proof.
  unfold with_scheme at 1. now rewrite has_scheme_with_scheme.
Qed.

Lemma web_try_log (r : outcome string * list WebCall) :
  snd (web_try r) = snd r.
Proof.
  destruct r as [[text|e] log]; simpl; [reflexivity|].
  destruct (is_WebPerceptionError e); [reflexivity|].
  destruct (is_Exception e); reflexivity.
Qed.

Lemma extract_with_log {C} (resp : outcome (ExtractResult C))
    (url content_type : string) (section : C -> string) :
  snd (extract_with resp url content_type section) =
  [CallExtractPageContent url content_type 30].
Proof.
  unfold extract_with. destruct resp as [result|e]; [|reflexivity].
  destruct (negb (er_success result)); reflexivity.
Qed.

(** Each web tool calls [services.web_tools] at most once, always with a
    URL that starts with "http://" or "https://" and with the timeout 30;
    an extraction is only ever requested for one of the four content
    types. *)
Theorem web_calls_well_formed (lower : string -> string)
    (W : WebEngine) (input : string) :
  let well_formed c :=
    has_scheme (webcall_url c) = true /\ webcall_timeout c = 30 /\
    match c with
    | CallExtractPageContent _ content_type _ =>
        allowed_content_type content_type = true
    | CallTestWebsiteLiveness _ check_errors _ => check_errors = true
    end in
  (Forall well_formed (snd (test_website_liveness_tool W input)) /\
   length (snd (test_website_liveness_tool W input)) <= 1) /\
  (Forall well_formed (snd (extract_page_content_tool lower W input)) /\
   length (snd (extract_page_content_tool lower W input)) <= 1).
Proof.
  intros well_formed. split.
  - unfold test_website_liveness_tool. rewrite web_try_log.
    unfold test_website_liveness_tool_body.
    destruct (test_website_liveness_resp W _ _ _); simpl;
      (split; [|lia]); repeat constructor; apply has_scheme_with_scheme.
  - unfold extract_page_content_tool. rewrite web_try_log.
    unfold extract_page_content_tool_body.
    destruct (PyStr.split "|" input) as [|p0 [|p1 [|p2 l]]]; simpl;
      try (split; [constructor|lia]).
    destruct (allowed_content_type (lower (PyStr.strip p1))) eqn:Hct;
      simpl; [|split; [constructor|lia]].
    repeat match goal with
    | |- context [if ?b then _ else _] => destruct b
    end; rewrite extract_with_log; simpl; (split; [|lia]);
      repeat constructor; first [apply has_scheme_with_scheme | exact Hct].
Qed.

(** [extract_page_content_tool] validates its input before any call: an
    input that is not exactly two pipe-fields gets the format error, and a
    content type other than text, links, images or forms (compared stripped
    and lowercased) gets the content-type error; in both cases
    [extract_page_content] is not called. *)
Theorem extract_tool_validates_first (lower : string -> string)
    (W : WebEngine) (request : string) :
  (length (PyStr.split "|" request) <> 2 ->
   extract_page_content_tool lower W request = (Returns extract_format_error, [])) /\
  (forall p0 p1,
      PyStr.split "|" request = [p0; p1] ->
      allowed_content_type (lower (PyStr.strip p1)) = false ->
      extract_page_content_tool lower W request = (Returns content_type_error, [])).
Proof.
  unfold extract_page_content_tool, extract_page_content_tool_body. split.
  - intros Hlen.
    destruct (PyStr.split "|" request) as [|p0 [|p1 [|p2 l]]];
      simpl in *; try reflexivity. lia.
  - intros p0 p1 -> Hct. simpl. rewrite Hct. reflexivity.
Qed.

Lemma extract_tool_validates_first_witness :
  extract_page_content_tool PyStr.lower_ascii demo_web "example.com" =
    (Returns extract_format_error, []) /\
  extract_page_content_tool PyStr.lower_ascii demo_web "example.com|videos" =
    (Returns content_type_error, []).
Proof.
  split.
  - apply (proj1 (extract_tool_validates_first PyStr.lower_ascii demo_web "example.com")).
    vm_compute. lia.
  - apply (proj2 (extract_tool_validates_first PyStr.lower_ascii demo_web "example.com|videos")
             "example.com" "videos"); reflexivity.
Defined.

Example extract_tool_unknown_type :
  extract_page_content_tool PyStr.lower_ascii demo_web "example.com|videos" =
  (Returns content_type_error, []).
Proof. reflexivity. Qed.

Lemma slice_to_len (n : nat) (s : string) :
  PyStr.len (PyStr.slice_to n s) = Nat.min n (PyStr.len s).
Proof.
  revert n. induction s as [|c s IH]; intros n; simpl.
  - now rewrite Nat.min_0_r.
  - destruct (PyStr.is_continuation c) eqn:Hc; simpl.
    + rewrite Hc. simpl. apply IH.
    + destruct n as [|n]; simpl; [reflexivity|]. rewrite Hc, IH. reflexivity.
Qed.

Lemma slice_to_all (n : nat) (s : string) :
  PyStr.len s <= n -> PyStr.slice_to n s = s.
Proof.
  revert n. induction s as [|c s IH]; intros n Hlen; simpl in *.
  - reflexivity.
  - destruct (PyStr.is_continuation c); simpl in Hlen.
    + now rewrite IH.
    + destruct n as [|n]; [lia|]. rewrite IH; [reflexivity|lia].
Qed.

Lemma len_append (a b : string) :
  PyStr.len (a +:+ b) = PyStr.len a + PyStr.len b.
Proof. induction a as [|c a IH]; simpl; [reflexivity|rewrite IH; lia]. Qed.

Lemma text_section_spec (content : string) :
  PyStr.len (text_section content) <= 2016 /\
  (PyStr.len content <= 2000 -> text_section content = content) /\
  (2000 < PyStr.len content ->
   text_section content =
     PyStr.slice_to 2000 content +:+ newline +:+ "... (truncated)").
Proof.
  unfold text_section.
  destruct (Nat.ltb_spec 2000 (PyStr.len content)) as [Hlong|Hshort].
  - split; [|split; [lia|reflexivity]].
    rewrite !len_append, slice_to_len.
    change (PyStr.len newline) with 1.
    change (PyStr.len "... (truncated)") with 15. lia.
  - split; [|split; [intros _; now apply slice_to_all|lia]].
    rewrite slice_to_len. lia.
Qed.

(** A successful text extraction returns the header followed by the page
    text: whole when it has at most 2000 characters, otherwise its first
    2000 characters and the mark "... (truncated)"; the text part never
    exceeds 2016 characters.  Characters are counted as [len] counts them,
    not bytes. *)
Theorem extract_text_truncated (lower : string -> string)
    (W : WebEngine) (request p0 p1 : string)
    (content err : string) :
  PyStr.split "|" request = [p0; p1] ->
  lower (PyStr.strip p1) = "text" ->
  extract_text_resp W (with_scheme (PyStr.strip p0)) 30 =
    Returns {| er_success := true; er_error := err; er_content := content |} ->
  exists body,
    fst (extract_page_content_tool lower W request) =
      Returns (extract_header (with_scheme (PyStr.strip p0)) "text" +:+ body) /\
    PyStr.len body <= 2016 /\
    (PyStr.len content <= 2000 -> body = content) /\
    (2000 < PyStr.len content ->
     body = PyStr.slice_to 2000 content +:+ newline +:+ "... (truncated)").
Proof.
  intros Hparts Htype Hresp. exists (text_section content).
  split; [|apply text_section_spec].
  unfold extract_page_content_tool, extract_page_content_tool_body.
  rewrite Hparts. cbv zeta. rewrite Htype. simpl allowed_content_type.
  simpl negb. cbv iota. simpl String.eqb. cbv iota.
  unfold extract_with. rewrite Hresp. reflexivity.
Qed.

Lemma extract_text_truncated_witness :
  exists body,
    fst (extract_page_content_tool PyStr.lower_ascii demo_web "example.com| Text") =
      Returns (extract_header (with_scheme (PyStr.strip "example.com")) "text"
               +:+ body) /\
    PyStr.len body <= 2016 /\
    (PyStr.len "hello" <= 2000 -> body = "hello") /\
    (2000 < PyStr.len "hello" ->
     body = PyStr.slice_to 2000 "hello" +:+ newline +:+ "... (truncated)").
Proof.
  apply (extract_text_truncated PyStr.lower_ascii demo_web "example.com| Text" "example.com"
           " Text" "hello" ""); reflexivity.
Defined.

(** A web tool raises nothing that derives from [Exception]: what its
    [try] block raises is returned as text, "Web Perception Error: ..." for
    a [WebPerceptionError] and "Unexpected error: ..." for the rest, with
    the call log of the block. *)
Theorem web_tool_returns_error_text (lower : string -> string)
    (W : WebEngine) (input : string) (e : exn)
    (log : list WebCall) :
  is_Exception e = true ->
  let text :=
    (if is_WebPerceptionError e then "Web Perception Error: "
     else "Unexpected error: ") +:+ exn_str e in
  (test_website_liveness_tool_body W input = (Raises e, log) ->
   test_website_liveness_tool W input = (Returns text, log)) /\
  (extract_page_content_tool_body lower W input = (Raises e, log) ->
   extract_page_content_tool lower W input = (Returns text, log)).
Proof.
  intros He text. subst text.
  unfold test_website_liveness_tool, extract_page_content_tool.
  split; intros ->; unfold web_try; rewrite He;
    destruct (is_WebPerceptionError e); reflexivity.
Qed.

Lemma web_tool_returns_error_text_witness :
  extract_page_content_tool PyStr.lower_ascii demo_web "news.com|forms" =
  (Returns ("Web Perception Error: " +:+ "browser crashed"),
   [CallExtractPageContent "https://news.com" "forms" 30]).
Proof.
  apply (proj2 (web_tool_returns_error_text PyStr.lower_ascii demo_web "news.com|forms"
                  (OtherException "WebPerceptionError" "browser crashed")
                  [CallExtractPageContent "https://news.com" "forms" 30]
                  eq_refl));
    reflexivity.
Defined.

(** ** Agent mode *)

Example agent_session :
  cmd_agent_mode PyStr.lower_ascii (ret echo_agent) None
    [TypedLine "  "; TypedLine " list repos "; TypedLine "QUIT"; TypedLine "more"]
    initial_world =
  (Returns tt,
   mkWorld []
     ([ "Initializing Super-Agent with GitHub and Web tools...";
        "✓ Super-Agent initialized with GitHub and Web Perception tools" ]
      ++ agent_help
      ++ [ "Agent> "; "Agent> ";
           newline +:+ "--- Running Task: 'list repos' ---";
           newline +:+ "--- Agent Response ---";
           "done: list repos";
           "--- Task Completed ---" +:+ newline;
           "Agent> " ])).
Proof. reflexivity. Qed.

Example agent_single_task :
  stdout (snd (cmd_agent_mode PyStr.lower_ascii (ret echo_agent) (Some "sync") [] initial_world)) =
  [ "Initializing Super-Agent with GitHub and Web tools...";
    "✓ Super-Agent initialized with GitHub and Web Perception tools";
    newline +:+ "--- Running Task: 'sync' ---";
    newline +:+ "--- Agent Response ---";
    "done: sync";
    "--- Task Completed ---" +:+ newline ].
Proof. reflexivity. Qed.

(** What [run_agent_task] raises was raised by the agent, and is outside
    [Exception]. *)
Lemma run_agent_task_contains_aux (agent : Agent) (task : string)
    (w w' : World) (e : exn) :
  run_agent_task (Some agent) task w = (Raises e, w') ->
  exists w0, fst (agent task w0) = Raises e /\ is_Exception e = false.
Proof.
  unfold run_agent_task.
  destruct task as [|c task]; [discriminate|]. change (PyStr.truthy (String c task)) with true. cbv iota.
  unfold bind at 1. unfold print at 1. unfold try_except.
  unfold bind at 1. cbv beta.
  match goal with
  | |- context [agent ?t ?w0] =>
      destruct (agent t w0) as [[response|e0] w1] eqn:Hrun
  end.
  - unfold bind, print. discriminate.
  - simpl. destruct (is_Exception e0) eqn:He0.
    + unfold print. discriminate.
    + intros [= <- <-]. eexists.
      split; [exact (f_equal fst Hrun)|exact He0].
Qed.

(** [run_agent_task] contains every exception deriving from [Exception]:
    whatever it raises comes from the agent and is outside [Exception]. With
    no agent or an empty task it does nothing at all. *)
Theorem run_agent_task_contains (agent : option Agent) (task : string)
    (w w' : World) (e : exn) :
  run_agent_task agent task w = (Raises e, w') ->
  is_Exception e = false /\ agent <> None /\ task <> "".
Proof.
  unfold run_agent_task. destruct agent as [run|]; [|discriminate].
  destruct task as [|c task]; [discriminate|]. change (PyStr.truthy (String c task)) with true. cbv iota.
  unfold bind at 1. unfold print at 1. unfold try_except.
  unfold bind at 1. cbv beta.
  match goal with
  | |- context [run ?t ?w0] => destruct (run t w0) as [[response|e0] w1]
  end.
  - unfold bind, print. discriminate.
  - simpl. destruct (is_Exception e0) eqn:He0.
    + unfold print. discriminate.
    + intros [= <- <-]. repeat split; [exact He0|discriminate|discriminate].
Qed.

Lemma run_agent_task_contains_witness :
  is_Exception (NonException "KeyboardInterrupt" "") = false /\
  Some interrupted_agent <> None /\ "sync" <> "".
Proof.
  apply (run_agent_task_contains (Some interrupted_agent) "sync" initial_world
           (mkWorld [] [newline +:+ "--- Running Task: 'sync' ---"])
           (NonException "KeyboardInterrupt" "")).
  reflexivity.
Defined.

Lemma run_agent_task_returns (agent : Agent) (task : string) (w : World) :
  agent_contained agent ->
  exists w', run_agent_task (Some agent) task w = (Returns tt, w').
Proof.
  intros Hagent.
  destruct (run_agent_task (Some agent) task w) as [[[]|e] w'] eqn:Hrun.
  - now exists w'.
  - exfalso. pose proof Hrun as Hraise.
    apply run_agent_task_contains_aux in Hraise.
    destruct Hraise as (w0 & Hfst & He).
    apply Hagent in Hfst. congruence.
Qed.

Lemma agent_loop_typed (lower : string -> string)
    (agent : Agent) (text : string)
    (rest : list StdinEvent) (w : World) :
  agent_loop lower agent (TypedLine text :: rest) w =
  let w0 := mkWorld (calls w) (stdout w ++ [agent_prompt]) in
  if is_quit lower (PyStr.strip text) then (Returns tt, w0)
  else match loop_turn agent (PyStr.strip text) w0 with
       | (Returns go_on, w1) =>
           (if go_on then agent_loop lower agent rest else ret tt) w1
       | (Raises e, w1) => (Raises e, w1)
       end.
Proof.
  simpl. unfold bind at 1. unfold print at 1.
  destruct (is_quit lower (PyStr.strip text)); reflexivity.
Qed.

(** The interactive loop ends at the first quit word ("quit", "exit" or
    "q", in any case, with surrounding blanks): whatever is typed after it
    is never read. *)
Theorem agent_loop_stops_at_quit (lower : string -> string)
    (agent : Agent) (before after : list StdinEvent)
    (word : string) (w : World) :
  is_quit lower (PyStr.strip word) = true ->
  agent_loop lower agent (before ++ TypedLine word :: after) w =
  agent_loop lower agent (before ++ [TypedLine word]) w.
Proof.
  intros Hquit. revert w.
  induction before as [|ev before IH]; intros w.
  - simpl app. rewrite !agent_loop_typed. cbv zeta. now rewrite Hquit.
  - destruct ev as [text|]; [|reflexivity].
    simpl app. rewrite !agent_loop_typed. cbv zeta.
    destruct (is_quit lower (PyStr.strip text)); [reflexivity|].
    destruct (loop_turn agent (PyStr.strip text) _) as [[[|]|e] w1];
      [apply IH|reflexivity|reflexivity].
Qed.

Lemma agent_loop_stops_at_quit_witness :
  agent_loop PyStr.lower_ascii echo_agent ([TypedLine "list"] ++ TypedLine " Exit " :: [TypedLine "more"])
    initial_world =
  agent_loop PyStr.lower_ascii echo_agent ([TypedLine "list"] ++ [TypedLine " Exit "]) initial_world.
Proof.
  apply (agent_loop_stops_at_quit PyStr.lower_ascii echo_agent [TypedLine "list"] [TypedLine "more"]
           " Exit " initial_world).
  reflexivity.
Defined.

Lemma loop_turn_goes_on (agent : Agent) (task : string) (w : World) :
  agent_contained agent ->
  loop_turn agent task w =
    (Returns true, snd (run_agent_task (Some agent) task w)).
Proof.
  intros Hagent. unfold loop_turn, try_except, bind.
  destruct (run_agent_task_returns agent task w Hagent) as [w1 Hrun].
  destruct task as [|c task].
  - simpl. reflexivity.
  - change (PyStr.truthy (String c task)) with true. cbv iota.
    now rewrite Hrun.
Qed.

Lemma agent_loop_step (lower : string -> string)
    (agent : Agent) (text : string) (rest : list StdinEvent)
    (w : World) :
  agent_contained agent ->
  is_quit lower (PyStr.strip text) = false ->
  agent_loop lower agent (TypedLine text :: rest) w =
  agent_loop lower agent rest
    (snd ((print agent_prompt ;;
           run_agent_task (Some agent) (PyStr.strip text)) w)).
Proof.
  intros Hagent Hquit. rewrite agent_loop_typed. cbv zeta. rewrite Hquit.
  rewrite (loop_turn_goes_on agent _ _ Hagent).
  unfold bind, print. reflexivity.
Qed.

(** When the input ends without a quit word and without Ctrl-C, the
    interactive loop ends with the [EOFError] of [input], which nothing in
    agent mode catches; every prompt was answered first. *)
Theorem agent_loop_ends_with_eof (lower : string -> string)
    (agent : Agent) (lines : list string)
    (w : World) :
  agent_contained agent ->
  no_quit lower lines ->
  fst (agent_loop lower agent (map TypedLine lines) w) = Raises eof_error.
Proof.
  intros Hagent Hlines. revert w.
  induction Hlines as [|text lines Hquit _ IH]; intros w.
  - reflexivity.
  - simpl map. rewrite (agent_loop_step lower agent text _ w Hagent Hquit).
    apply IH.
Qed.

Lemma echo_agent_contained : agent_contained echo_agent.
Proof. intros task w e. discriminate. Qed.

Lemma agent_loop_ends_with_eof_witness :
  fst (agent_loop PyStr.lower_ascii echo_agent (map TypedLine ["list repos"; ""]) initial_world) =
  Raises eof_error.
Proof.
  apply (agent_loop_ends_with_eof PyStr.lower_ascii echo_agent ["list repos"; ""] initial_world).
  - exact echo_agent_contained.
  - repeat constructor.
Defined.

Lemma bind_bind_returns {A B C} (c : M A) (k1 : A -> M B) (k2 : B -> M C)
    (w w1 : World) (a : A) :
  c w = (Returns a, w1) ->
  bind (bind c k1) k2 w = bind (k1 a) k2 w1.
Proof. intros Hc. unfold bind. now rewrite Hc. Qed.

Lemma prompt_and_task_return (agent : Agent) (task : string) (w : World) :
  agent_contained agent ->
  exists w1,
    (print agent_prompt ;; run_agent_task (Some agent) task) w = (Returns tt, w1).
Proof.
  intros Hagent. unfold bind at 1. unfold print at 1.
  apply (run_agent_task_returns agent task _ Hagent).
Qed.

(** A session of typed lines that ends with a quit word runs, in order, one
    [run_agent_task] per line typed before it, each after its prompt (a
    blank line runs nothing), and then returns. *)
Theorem agent_session_runs_each_line (lower : string -> string)
    (agent : Agent) (lines : list string)
    (word : string) (after : list StdinEvent) (w : World) :
  agent_contained agent ->
  no_quit lower lines ->
  is_quit lower (PyStr.strip word) = true ->
  agent_loop lower agent (map TypedLine lines ++ TypedLine word :: after) w =
  (for_each lines (fun text =>
     print agent_prompt ;; run_agent_task (Some agent) (PyStr.strip text)) ;;
   print agent_prompt) w.
Proof.
  intros Hagent Hlines Hquit. revert w.
  induction Hlines as [|text lines Htext _ IH]; intros w.
  - simpl map. simpl app. rewrite agent_loop_typed. cbv zeta. rewrite Hquit.
    reflexivity.
  - simpl map. simpl app.
    rewrite (agent_loop_step lower agent text _ w Hagent Htext), IH.
    destruct (prompt_and_task_return agent (PyStr.strip text) w Hagent)
      as [w1 Hturn].
    cbn [for_each]. rewrite Hturn.
    now rewrite (bind_bind_returns _ _ _ _ _ _ Hturn).
Qed.

Lemma agent_session_runs_each_line_witness :
  agent_loop PyStr.lower_ascii echo_agent
    (map TypedLine ["list repos"; "  "] ++ TypedLine "q" :: [CtrlC])
    initial_world =
  (for_each ["list repos"; "  "] (fun text =>
     print agent_prompt ;; run_agent_task (Some echo_agent) (PyStr.strip text)) ;;
   print agent_prompt) initial_world.
Proof.
  apply (agent_session_runs_each_line PyStr.lower_ascii echo_agent ["list repos"; "  "] "q"
           [CtrlC] initial_world).
  - exact echo_agent_contained.
  - repeat constructor.
  - reflexivity.
Defined.

(** When building the agent raises an exception deriving from [Exception],
    [cmd_agent_mode] prints the two initialization lines and returns: no
    task is run and no prompt is shown, with or without [--task]. *)
Theorem agent_mode_without_agent (lower : string -> string)
    (build : M Agent) (task : option string)
    (stdin : list StdinEvent) (w w' : World) (e : exn) :
  build (mkWorld (calls w)
           (stdout w ++ ["Initializing Super-Agent with GitHub and Web tools..."])) =
    (Raises e, w') ->
  is_Exception e = true ->
  cmd_agent_mode lower build task stdin w =
    (Returns tt,
     mkWorld (calls w')
       (stdout w' ++ ["✗ Error initializing agent: " +:+ exn_str e])).
Proof.
  intros Hbuild He.
  unfold cmd_agent_mode, initialize_agent_system.
  unfold bind at 1. unfold bind at 1. unfold print at 1.
  unfold try_except. unfold bind at 1. rewrite Hbuild.
  simpl. rewrite He. reflexivity.
Qed.

Lemma agent_mode_without_agent_witness :
  cmd_agent_mode PyStr.lower_ascii (raise (ValueError "no API key")) (Some "sync")
    [TypedLine "list"] initial_world =
  (Returns tt,
   mkWorld
     (calls (mkWorld []
               ["Initializing Super-Agent with GitHub and Web tools..."]))
     (stdout (mkWorld []
                ["Initializing Super-Agent with GitHub and Web tools..."])
      ++ ["✗ Error initializing agent: "
          +:+ exn_str (ValueError "no API key")])).
Proof.
  apply (agent_mode_without_agent PyStr.lower_ascii (raise (ValueError "no API key")) (Some "sync")
           [TypedLine "list"] initial_world
           (mkWorld [] ["Initializing Super-Agent with GitHub and Web tools..."])
           (ValueError "no API key"));
    reflexivity.
Defined.

(** ** Spaces that are not ASCII *)

(** A no-break space around a field is stripped like any other space. *)
Example private_with_nbsp :
  calls (snd (create_github_repo PyStr.lower_ascii ok_engine
                ("demo|d|true" +:+ nbsp) initial_world)) =
  [CallCreateRepository "demo" "d" true None].
Proof. reflexivity. Qed.

Example org_with_nbsp :
  calls (snd (create_github_repo PyStr.lower_ascii ok_engine
                ("demo|d|true|" +:+ nbsp) initial_world)) =
  [CallCreateRepository "demo" "d" true None].
Proof. reflexivity. Qed.

Example sync_with_nbsp :
  calls (snd (sync_project_to_github ok_engine
                (nbsp +:+ "octo/demo|" +:+ nbsp) initial_world)) =
  [CallSyncProjectToRepo "octo" "demo" "." "main"] /\
  calls (snd (sync_project_to_github ok_engine
                ("octo/demo| release" +:+ nbsp) initial_world)) =
  [CallSyncProjectToRepo "octo" "demo" "." "release"].
Proof. split; reflexivity. Qed.

Example quit_with_nbsp :
  agent_loop PyStr.lower_ascii echo_agent
    [TypedLine ("quit" +:+ nbsp); TypedLine "more"] initial_world =
  (Returns tt, mkWorld [] ["Agent> "]).
Proof. reflexivity. Qed.

(** Characters of several bytes count once: three letters with an accent
    are three characters, and a text of them is returned whole. *)
Example text_section_counts_characters :
  text_section "éèê" = "éèê" /\ PyStr.len "éèê" = 3.
Proof. split; reflexivity. Qed.
